(** * Wikipedia autosuggest: the suggestion state machine, its persistence
      and its keyboard cursor

    A shallow embedding of [bindWikipediaAutosuggest] and of the helper
    functions around it ([toSuggestions], [savePersisted], [loadPersisted],
    [clearPersisted]), as they stand in the most complete draft of the
    widget (the one with the retention window and the keyboard handler).

    Conventions.
    - A JavaScript string is a [string]; [String.length] stands for
      [.length].
    - [Date.now()] and the numbers the widget computes with are integers
      ([Z]); epoch milliseconds are far below 2^53, where the arithmetic of
      doubles is exact.
    - The RxJS operators the widget uses ([map], [catchError], [startWith],
      [switchMap], [of]) are modelled on notifications ([Next], [Error],
      [Complete]), with [switchMap] keeping at most one inner subscription. *)

From Stdlib Require Import ZArith List String Bool Lia.
From Stdlib Require Import Decimal DecimalNat DecimalString.
Import ListNotations.

Local Open Scope string_scope.
Local Open Scope Z_scope.

Set Warnings "-register-all".

(** ** Data model *)

(** [type Suggestion = { title: string; description?: string; url?: string }] *)
Record Suggestion : Type := mkSuggestion {
  title : string;
  description : option string;
  url : option string
}.

(** [type WikiOpenSearch = [string, string[], string[], string[]]] *)
Definition WikiOpenSearch : Type :=
  (string * list string * list string * list string)%type.

(** The [kind] tag of a [SuggestState]. *)
Inductive Kind : Type := idle | loading | done | error.

(** [SuggestState]: every case carries [term] and [items]; the [error]
    case also carries the message. *)
Record SuggestState : Type := mkState {
  kind : Kind;
  term : string;
  items : list Suggestion;
  error_message : option string
}.

Definition Idle (t : string) (xs : list Suggestion) : SuggestState :=
  mkState idle t xs None.
Definition Loading (t : string) (xs : list Suggestion) : SuggestState :=
  mkState loading t xs None.
Definition Done (t : string) (xs : list Suggestion) : SuggestState :=
  mkState done t xs None.
Definition Errored (t : string) (xs : list Suggestion) (msg : string)
  : SuggestState :=
  mkState error t xs (Some msg).

Definition Kind_eqb (a b : Kind) : bool :=
  match a, b with
  | idle, idle | loading, loading | done, done | error, error => true
  | _, _ => false
  end.

(** [xs.length], as the number JavaScript computes with. *)
Definition len {A : Type} (xs : list A) : Z := Z.of_nat (List.length xs).

(** [s.length] of a string. *)
Definition strlen (s : string) : Z := Z.of_nat (String.length s).

(** ** toSuggestions *)

(** The [for] loop of [toSuggestions] with [fuel = n - i] rounds left at
    index [i]: each round pushes
    [{ title: titles[i], description: descriptions[i], url: urls[i] }].
    An array read past the end is [undefined]; for the optional fields that
    is [None], and [title] is only ever read below [titles.length],
    since [i < n]. *)
Fixpoint toSuggestions_loop (fuel i : nat)
    (titles descriptions urls : list string) (out : list Suggestion)
  : list Suggestion :=
  match fuel with
  | O => out
  | S fuel' =>
      toSuggestions_loop fuel' (S i) titles descriptions urls
        (out ++ [ {| title := nth i titles "";
                     description := nth_error descriptions i;
                     url := nth_error urls i |} ])
  end.

Definition toSuggestions (data : WikiOpenSearch) : list Suggestion :=
  let '(_, titles, descriptions, urls) := data in
  let n := Nat.min (List.length titles)
             (Nat.min (List.length descriptions) (List.length urls)) in
  toSuggestions_loop n 0 titles descriptions urls [].

(** The suggestion built from position [i] of the three arrays. *)
Definition suggestion_at (titles descriptions urls : list string) (i : nat)
  : Suggestion :=
  {| title := nth i titles "";
     description := nth_error descriptions i;
     url := nth_error urls i |}.

(** ** JavaScript values read back from the store *)

(** A parsed JSON value. Numbers are the integers (see the conventions
    above); an object is the list of its own properties, each name once. *)
Inductive json : Type :=
| JNull
| JBool (b : bool)
| JNum (n : Z)
| JStr (s : string)
| JArr (xs : list json)
| JObj (fields : list (string * json)).

(** A JavaScript number as far as the expiry test needs it. *)
Inductive number : Type := NaN | Num (z : Z).

(** A thrown value: an [Error] with its [message], or anything else with
    the text [String(e)] gives for it. *)
Inductive Thrown : Type :=
| ThrownError (message : string)
| ThrownOther (text : string).

Inductive result (A : Type) : Type :=
| Returned (a : A)
| Threw (e : Thrown).
Arguments Returned {A} a.
Arguments Threw {A} e.

Fixpoint lookup_field (k : string) (fields : list (string * json))
  : option json :=
  match fields with
  | [] => None
  | (k', v) :: rest => if String.eqb k k' then Some v else lookup_field k rest
  end.

(** [v.k] for the property names the widget reads ([term], [items],
    [savedAt], [title], [description], [url]); [None] is [undefined].
    None of them is a property of a number, boolean, string or array. *)
Definition prop (v : json) (k : string) : option json :=
  match v with
  | JObj fields => lookup_field k fields
  | _ => None
  end.

(** [!v] is false. *)
Definition truthy (v : json) : bool :=
  match v with
  | JNull => false
  | JBool b => b
  | JNum n => negb (n =? 0)
  | JStr s => negb (String.eqb s "")
  | JArr _ | JObj _ => true
  end.

(** [typeof x === "string"] *)
Definition is_string (x : option json) : bool :=
  match x with Some (JStr _) => true | _ => false end.

(** [Array.isArray(x)] *)
Definition isArray (x : option json) : bool :=
  match x with Some (JArr _) => true | _ => false end.

(** [a - b] and [a > b] on numbers: [NaN] is absorbing for [-], and every
    comparison with [NaN] is false. *)
Definition number_sub (a b : number) : number :=
  match a, b with
  | Num x, Num y => Num (x - y)
  | _, _ => NaN
  end.

Definition number_gtb (a b : number) : bool :=
  match a, b with
  | Num x, Num y => y <? x
  | _, _ => false
  end.

(** [type PersistedSuggestions = { term; items; savedAt }] *)
Record PersistedSuggestions : Type := mkPersisted {
  p_term : string;
  p_items : list Suggestion;
  savedAt : Z
}.

Definition optional_field (k : string) (o : option string)
  : list (string * json) :=
  match o with
  | Some s => [(k, JStr s)]
  | None => []
  end.

(** The JSON value [JSON.stringify] writes for a suggestion: a property
    whose value is [undefined] is left out. *)
Definition Suggestion_to_json (s : Suggestion) : json :=
  JObj (("title", JStr (title s))
          :: optional_field "description" (description s)
          ++ optional_field "url" (url s)).

Definition PersistedSuggestions_to_json (v : PersistedSuggestions) : json :=
  JObj [ ("term", JStr (p_term v));
         ("items", JArr (map Suggestion_to_json (p_items v)));
         ("savedAt", JNum (savedAt v)) ].

(** [v.k] when it is a string. *)
Definition string_prop (v : json) (k : string) : option string :=
  match prop v k with
  | Some (JStr s) => Some s
  | _ => None
  end.

(** The string of a property named [k]. *)
Definition string_field (k : string) (f : string * json) : option string :=
  match f with
  | (k', JStr s) => if String.eqb k k' then Some s else None
  | _ => None
  end.

(** A stored item read at the declared type [Suggestion]: [Some s]
    exactly when the item is the JSON of [s] (a string [title], then the
    optional strings [description] and [url], and nothing else), so that
    nothing of the item is lost or changed by reading it. *)
Definition Suggestion_of_json (v : json) : option Suggestion :=
  match v with
  | JObj (ft :: rest) =>
      match string_field "title" ft with
      | None => None
      | Some t =>
          match rest with
          | [] => Some (mkSuggestion t None None)
          | [f] =>
              match string_field "description" f, string_field "url" f with
              | Some d, _ => Some (mkSuggestion t (Some d) None)
              | None, Some u => Some (mkSuggestion t None (Some u))
              | None, None => None
              end
          | [fd; fu] =>
              match string_field "description" fd, string_field "url" fu with
              | Some d, Some u => Some (mkSuggestion t (Some d) (Some u))
              | _, _ => None
              end
          | _ => None
          end
      end
  | _ => None
  end.

(** The stored [items] as the widget meets them. The code casts the
    parsed record ([as PersistedSuggestions]) without looking at the
    items. Either every item is a [Suggestion]; or the first item that is
    not one is [null], on which [renderSuggestions] throws (it reads
    [s.title]) after the suggestions before it; or it is some other
    value, which the widget keeps as parsed and which is outside this
    model. *)
Inductive ItemsRead : Type :=
| Typed (xs : list Suggestion)
| NullItem (before : list Suggestion)
| Untyped.

Fixpoint items_as_Suggestions (xs : list json) : ItemsRead :=
  match xs with
  | [] => Typed []
  | JNull :: _ => NullItem []
  | x :: rest =>
      match Suggestion_of_json x with
      | None => Untyped
      | Some s =>
          match items_as_Suggestions rest with
          | Typed ss => Typed (s :: ss)
          | NullItem before => NullItem (s :: before)
          | Untyped => Untyped
          end
      end
  end.

(** [restored.term] and [restored.items] of the record [loadPersisted]
    returned (it has checked that the first is a string and the second an
    array). *)
Definition restored_term (parsed : json) : string :=
  match string_prop parsed "term" with Some s => s | None => "" end.

Definition restored_items (parsed : json) : ItemsRead :=
  match prop parsed "items" with
  | Some (JArr xs) => items_as_Suggestions xs
  | _ => Untyped
  end.

(** The [TypeError] of reading [s.title] on a [null] item. *)
Definition null_item_error : Thrown :=
  ThrownError "Cannot read properties of null (reading 'title')".

(** ** The session store *)

(** The text kept under [STORAGE_KEY], as [JSON.parse] reads it: the empty
    string, a text [JSON.parse] rejects, or the text of a JSON value. *)
Inductive StoreText : Type :=
| TextEmpty
| TextInvalid
| TextJson (v : json).

(** [sessionStorage], restricted to [STORAGE_KEY]: the entry ([None] when
    there is none) and, for each operation, whether it throws (private
    mode, quota). *)
Record Storage : Type := mkStorage {
  entry : option StoreText;
  getItem_throws : bool;
  setItem_throws : bool;
  removeItem_throws : bool
}.

Definition with_entry (st : Storage) (e : option StoreText) : Storage :=
  {| entry := e;
     getItem_throws := getItem_throws st;
     setItem_throws := setItem_throws st;
     removeItem_throws := removeItem_throws st |}.

(** Computations over the store that may throw. *)
Definition Store (A : Type) : Type := Storage -> result A * Storage.

Definition ret {A : Type} (a : A) : Store A := fun st => (Returned a, st).

Definition throw {A : Type} (e : Thrown) : Store A := fun st => (Threw e, st).

Definition bind {A B : Type} (c : Store A) (k : A -> Store B) : Store B :=
  fun st =>
    match c st with
    | (Returned a, st') => k a st'
    | (Threw e, st') => (Threw e, st')
    end.

(** [try { body } catch { handler }] *)
Definition try_catch {A : Type} (body : Store A) (handler : Store A)
  : Store A :=
  fun st =>
    match body st with
    | (Returned a, st') => (Returned a, st')
    | (Threw _, st') => handler st'
    end.

Definition lift {A : Type} (r : result A) : Store A := fun st => (r, st).

Notation "x <- c ;; k" := (bind c (fun x => k))
  (at level 61, c at next level, right associativity).
Notation "c ;;; k" := (bind c (fun _ => k))
  (at level 61, right associativity).

Definition storage_error : Thrown := ThrownError "The operation is insecure.".
Definition quota_error : Thrown := ThrownError "The quota has been exceeded.".
Definition syntax_error : Thrown := ThrownError "Unexpected token in JSON".

(** [sessionStorage.getItem(STORAGE_KEY)] *)
Definition getItem : Store (option StoreText) :=
  fun st =>
    if getItem_throws st then (Threw storage_error, st)
    else (Returned (entry st), st).

(** [sessionStorage.setItem(STORAGE_KEY, text)] *)
Definition setItem (text : StoreText) : Store unit :=
  fun st =>
    if setItem_throws st then (Threw quota_error, st)
    else (Returned tt, with_entry st (Some text)).

(** [sessionStorage.removeItem(STORAGE_KEY)] *)
Definition removeItem : Store unit :=
  fun st =>
    if removeItem_throws st then (Threw storage_error, st)
    else (Returned tt, with_entry st None).

(** [JSON.parse(raw)] *)
Definition JSON_parse (raw : StoreText) : result json :=
  match raw with
  | TextJson v => Returned v
  | TextEmpty | TextInvalid => Threw syntax_error
  end.

(** [JSON.stringify(v)] at the type [PersistedSuggestions]. *)
Definition JSON_stringify (v : PersistedSuggestions) : StoreText :=
  TextJson (PersistedSuggestions_to_json v).

(** [const PERSIST_TTL_MS = 30 * 60 * 1000] *)
Definition PERSIST_TTL_MS : Z := 30 * 60 * 1000.

(** ** RxJS notifications and the operators of the inner pipeline *)

Inductive Notification (A : Type) : Type :=
| Next (a : A)
| Error (e : Thrown)
| Complete.
Arguments Next {A} a.
Arguments Error {A} e.
Arguments Complete {A}.

(** [of(x)]: the value, then completion. *)
Definition rx_of {A : Type} (x : A) : list (Notification A) :=
  [Next x; Complete].

(** [map(f)] on one notification of its source. *)
Definition rx_map {A B : Type} (f : A -> B) (n : Notification A)
  : list (Notification B) :=
  match n with
  | Next a => [Next (f a)]
  | Error e => [Error e]
  | Complete => [Complete]
  end.

(** [catchError(h)] on one notification of its source: an error is
    replaced by what the observable [h e] delivers. *)
Definition rx_catchError {A : Type} (h : Thrown -> list (Notification A))
    (n : Notification A) : list (Notification A) :=
  match n with
  | Error e => h e
  | _ => [n]
  end.

(** How [ajax.getJSON] ends: the parsed body, then completion; or an
    error. *)
Inductive AjaxOutcome : Type :=
| Loaded (data : WikiOpenSearch)
| Failed (e : Thrown).

Definition ajax_delivery (r : AjaxOutcome)
  : list (Notification WikiOpenSearch) :=
  match r with
  | Loaded data => [Next data; Complete]
  | Failed e => [Error e]
  end.

(** [e instanceof Error ? e.message : String(e)] *)
Definition error_text (e : Thrown) : string :=
  match e with
  | ThrownError message => message
  | ThrownOther text => text
  end.

(** What the search pipeline for [t] delivers when its request ends:
    the notifications of [ajax.getJSON] through
    [map(data => done)] and [catchError(e => of(error))]. *)
Definition inner_on_response (t : string) (r : AjaxOutcome)
  : list (Notification SuggestState) :=
  flat_map
    (rx_catchError (fun e => rx_of (Errored t [] (error_text e))))
    (flat_map (rx_map (fun data => Done t (toSuggestions data)))
       (ajax_delivery r)).

(** ** The widget *)

(** The options of [bindWikipediaAutosuggest] (the element handles are not
    modelled). *)
Record Options : Type := mkOptions {
  opt_minLength : option Z;
  opt_debounceMs : option Z;
  opt_limit : option Z
}.

(** [o ?? d] *)
Definition nullish {A : Type} (o : option A) (d : A) : A :=
  match o with
  | Some v => v
  | None => d
  end.

Definition minLength (opts : Options) : Z := nullish (opt_minLength opts) 3.
Definition debounceMs (opts : Options) : Z := nullish (opt_debounceMs opts) 500.
Definition limit (opts : Options) : Z := nullish (opt_limit opts) 10.

(** One call of [searchWikipedia(term, limit)] that was subscribed. *)
Record Request : Type := mkRequest {
  req_id : nat;
  req_term : string;
  req_limit : Z
}.

(** The observable the projection of [switchMap] returns for a term:
    [of(state)], or the search pipeline
    [searchWikipedia(t, limit).pipe(map, catchError, startWith)]. *)
Inductive Inner : Type :=
| OfState (s : SuggestState)
| SearchPipeline (t : string) (lim : Z).

(** The state of a bound widget: the closure variables [lastState] and
    [activeIndex], the inner subscription [switchMap] holds (the request it
    waits for and its term), the store, and two logs kept for the
    statements below: the states the subscriber received and the provider
    calls made. [uncaught] records an exception that escaped: an error
    notification reaching the subscriber of [state$] (which has no error
    callback) or a throw out of the subscriber. The DOM (rendering, the
    input's text, opening a url) is not modelled. *)
Record Widget : Type := mkWidget {
  lastState : SuggestState;
  activeIndex : Z;
  inner : option (nat * string);
  next_id : nat;
  storage : Storage;
  emitted : list SuggestState;
  requests : list Request;
  uncaught : option Thrown
}.

Definition set_inner (i : option (nat * string)) (w : Widget) : Widget :=
  mkWidget (lastState w) (activeIndex w) i (next_id w) (storage w)
    (emitted w) (requests w) (uncaught w).

Definition set_activeIndex (index : Z) (w : Widget) : Widget :=
  mkWidget (lastState w) index (inner w) (next_id w) (storage w)
    (emitted w) (requests w) (uncaught w).

Definition set_storage (st : Storage) (w : Widget) : Widget :=
  mkWidget (lastState w) (activeIndex w) (inner w) (next_id w) st
    (emitted w) (requests w) (uncaught w).

Definition set_uncaught (e : Thrown) (w : Widget) : Widget :=
  mkWidget (lastState w) (activeIndex w) (inner w) (next_id w) (storage w)
    (emitted w) (requests w) (Some e).

(** The subscriber's first two assignments, [lastState = s] and
    [activeIndex = -1], with [s] added to the log. *)
Definition receive (s : SuggestState) (w : Widget) : Widget :=
  mkWidget s (-1) (inner w) (next_id w) (storage w)
    (emitted w ++ [s]) (requests w) (uncaught w).

(** Subscribing to [searchWikipedia(t, lim)]: the request is made and
    [switchMap] now waits for it. *)
Definition send_request (t : string) (lim : Z) (w : Widget) : Widget :=
  mkWidget (lastState w) (activeIndex w) (Some (next_id w, t))
    (S (next_id w)) (storage w) (emitted w)
    (requests w ++ [mkRequest (next_id w) t lim]) (uncaught w).

(** A store computation run from a handler: a throw would escape. *)
Definition run_store (c : Store unit) (w : Widget) : Widget :=
  match c (storage w) with
  | (Returned _, st') => set_storage st' w
  | (Threw e, st') => set_uncaught e (set_storage st' w)
  end.

Inductive Key : Type := ArrowDown | ArrowUp | Enter | Escape.

(** What happens to a bound widget: [term$] emits a settled term, the
    request with a given identifier ends, or one of the four keys the
    [filter] lets through is pressed. *)
Inductive Event : Type :=
| Settle (t : string)
| Response (id : nat) (r : AjaxOutcome)
| Keydown (k : Key).

Definition is_settle (ev : Event) : bool :=
  match ev with
  | Settle _ => true
  | _ => false
  end.

(** The draft of the widget that persists but has no retention window
    and no keyboard handler reads the snapshot back without looking at
    [savedAt]. *)
Module EarlierDraft.

Definition loadPersisted : Store (option json) :=
  try_catch
    (raw <- getItem ;;
     match raw with
     | None | Some TextEmpty => ret None
     | Some text =>
         parsed <- lift (JSON_parse text) ;;
         if negb (truthy parsed)
            || negb (is_string (prop parsed "term"))
            || negb (isArray (prop parsed "items"))
         then ret None
         else ret (Some parsed)
     end)
    (ret None).

End EarlierDraft.

(** Stand-ins for the two conversions below in closed examples (none of
    the examples converts a string, an array or an object). *)
Definition unused_StringToNumber (s : string) : number := NaN.
Definition unused_ObjectToNumber (v : json) : result number := Returned NaN.

Section Autosuggest.

(** The conversions of JavaScript the model does not define: of a string
    to a number, and of an array or object to a number (through
    [ToPrimitive], which may throw a [TypeError]). *)
Variable StringToNumber : string -> number.
Variable ObjectToNumber : json -> result number.

(** [ToNumber(x)]; [None] is [undefined]. *)
Definition ToNumber (x : option json) : result number :=
  match x with
  | None => Returned NaN
  | Some JNull => Returned (Num 0)
  | Some (JBool b) => Returned (Num (if b then 1 else 0))
  | Some (JNum n) => Returned (Num n)
  | Some (JStr s) => Returned (StringToNumber s)
  | Some v => ObjectToNumber v
  end.

(** ** Persistence *)

Definition savePersisted (v : PersistedSuggestions) : Store unit :=
  try_catch
    (setItem (JSON_stringify v))
    (ret tt).

(** [now] is [Date.now()]. *)
Definition loadPersisted (now : Z) : Store (option json) :=
  try_catch
    (raw <- getItem ;;
     match raw with
     | None | Some TextEmpty => ret None
     | Some text =>
         parsed <- lift (JSON_parse text) ;;
         if negb (truthy parsed)
            || negb (is_string (prop parsed "term"))
            || negb (isArray (prop parsed "items"))
         then ret None
         else
           saved <- lift (ToNumber (prop parsed "savedAt")) ;;
           if number_gtb (number_sub (Num now) saved) (Num PERSIST_TTL_MS)
           then removeItem ;;; ret None
           else ret (Some parsed)
     end)
    (ret None).

Definition clearPersisted : Store unit :=
  try_catch
    removeItem
    (ret tt).

(** ** bindWikipediaAutosuggest *)

(** The projection given to [switchMap]. *)
Definition project (opts : Options) (t : string) : Inner :=
  if strlen t <? minLength opts then OfState (Idle t [])
  else SearchPipeline t (limit opts).

(** The callback of [state$.subscribe]: cache the state, reset the cursor,
    persist a non-empty [done], drop the snapshot on a short [idle]. *)
Definition subscriber (opts : Options) (now : Z) (s : SuggestState)
    (w : Widget) : Widget :=
  let w1 := receive s w in
  let w2 :=
    if Kind_eqb (kind s) done && (0 <? len (items s))
    then run_store (savePersisted (mkPersisted (term s) (items s) now)) w1
    else w1 in
  if Kind_eqb (kind s) idle && (strlen (term s) <? minLength opts)
  then run_store clearPersisted w2
  else w2.

(** [switchMap] forwarding the notifications of its inner observable: a
    value goes to the subscriber, completion ends the inner subscription,
    an error would end [state$] with that error. *)
Fixpoint deliver (opts : Options) (now : Z)
    (ns : list (Notification SuggestState)) (w : Widget) : Widget :=
  match ns with
  | [] => w
  | Next s :: rest => deliver opts now rest (subscriber opts now s w)
  | Complete :: _ => set_inner None w
  | Error e :: _ => set_uncaught e (set_inner None w)
  end.

(** [term$] emits [t]: [switchMap] drops the inner subscription it holds
    and subscribes to the projection of [t]. The search pipeline delivers
    its [startWith] value and then makes the request. *)
Definition settle (opts : Options) (now : Z) (t : string) (w : Widget)
  : Widget :=
  let w0 := set_inner None w in
  match project opts t with
  | OfState s => deliver opts now (rx_of s) w0
  | SearchPipeline t' lim =>
      send_request t' lim (deliver opts now [Next (Loading t' [])] w0)
  end.

(** The request [id] ends: its outcome reaches the subscriber only if the
    inner subscription that made it is still the one [switchMap] holds. *)
Definition response (opts : Options) (now : Z) (id : nat) (r : AjaxOutcome)
    (w : Widget) : Widget :=
  match inner w with
  | Some (id', t) =>
      if Nat.eqb id id' then deliver opts now (inner_on_response t r) w
      else w
  | None => w
  end.

Definition applyActiveIndex (index : Z) (w : Widget) : Widget :=
  set_activeIndex index w.

(** The [keydown] handler. *)
Definition keydown (now : Z) (k : Key) (w : Widget) : Widget :=
  let items := items (lastState w) in
  match k with
  | Escape => applyActiveIndex (-1) w
  | ArrowDown =>
      applyActiveIndex (Z.min (activeIndex w + 1) (len items - 1)) w
  | ArrowUp =>
      applyActiveIndex (Z.max (activeIndex w - 1) (-1)) w
  | Enter =>
      if (0 <=? activeIndex w) && (activeIndex w <? len items) then
        match nth_error items (Z.to_nat (activeIndex w)) with
        | Some selected =>
            run_store
              (savePersisted (mkPersisted (title selected) items now)) w
        | None => w
        end
      else w
  end.

(** One event at time [now]. Once [state$] has ended with an error it
    delivers nothing more. *)
Definition step (opts : Options) (now : Z) (ev : Event) (w : Widget)
  : Widget :=
  match ev with
  | Keydown k => keydown now k w
  | Settle t =>
      match uncaught w with
      | Some _ => w
      | None => settle opts now t w
      end
  | Response id r =>
      match uncaught w with
      | Some _ => w
      | None => response opts now id r w
      end
  end.

Fixpoint run (opts : Options) (evs : list (Z * Event)) (w : Widget)
  : Widget :=
  match evs with
  | [] => w
  | (now, ev) :: rest => run opts rest (step opts now ev w)
  end.

(** [initialState], from the term and items of the restored record. *)
Definition initialState (restored : option (string * list Suggestion))
  : SuggestState :=
  match restored with
  | Some (t, xs) => Done t xs
  | None => Idle "" []
  end.

(** The rest of [bindWikipediaAutosuggest] once [initialState] is built:
    subscribing delivers [initialState] (the outer [startWith]) at
    once. *)
Definition subscribe_initial (opts : Options) (now : Z) (st : Storage)
    (s : SuggestState) : Widget :=
  subscriber opts now s (mkWidget s (-1) None O st [] [] None).

(** [bindWikipediaAutosuggest(opts)] called at time [now] with the store
    [st]: read the snapshot, build [initialState], render a restored
    snapshot, and subscribe. The render of the restored items has no
    [try]: on a [null] item its [TypeError] goes to the caller. [None]:
    the restored items are not suggestions and are outside the model. *)
Definition bindWikipediaAutosuggest (opts : Options) (now : Z)
    (st : Storage) : option (result Widget) :=
  match loadPersisted now st with
  | (Threw e, _) => Some (Threw e)
  | (Returned None, st') =>
      Some (Returned (subscribe_initial opts now st' (initialState None)))
  | (Returned (Some parsed), st') =>
      match restored_items parsed with
      | Typed xs =>
          Some (Returned
                  (subscribe_initial opts now st'
                     (initialState (Some (restored_term parsed, xs)))))
      | NullItem _ => Some (Threw null_item_error)
      | Untyped => None
      end
  end.

(** The widgets a bound widget can become. *)
Inductive Reachable (opts : Options) : Widget -> Prop :=
| Reachable_bind : forall now st w,
    bindWikipediaAutosuggest opts now st = Some (Returned w) ->
    Reachable opts w
| Reachable_step : forall now ev w,
    Reachable opts w ->
    Reachable opts (step opts now ev w).

(** The cursor is between [-1] and [items.length - 1]. *)
Definition cursor_in_range (w : Widget) : Prop :=
  -1 <= activeIndex w <= len (items (lastState w)) - 1.


(** ** The statements of the specification that the code does not meet,
    as stated *)

(** The loading state the specification describes: it keeps the items of
    the state that was current. *)
Definition spec_loading (previous : SuggestState) (t : string)
  : SuggestState :=
  Loading t (items previous).

(** The error state the specification describes. *)
Definition spec_error (previous : SuggestState) (t : string) (msg : string)
  : SuggestState :=
  Errored t (items previous) msg.

(** ** Examples of the definitions *)

Definition cat_response : WikiOpenSearch :=
  ("cat", ["Cat"; "Category"], ["d1"; "d2"], ["u1"; "u2"]).

Definition cat_items : list Suggestion :=
  [ mkSuggestion "Cat" (Some "d1") (Some "u1");
    mkSuggestion "Category" (Some "d2") (Some "u2") ].

Definition empty_store : Storage := mkStorage None false false false.

Definition broken_store : Storage := mkStorage None true true true.

Definition no_options : Options := mkOptions None None None.

(** The widget bound, with the default options, on the empty store. *)
Definition fresh_widget : Widget :=
  mkWidget (Idle "" []) (-1) None O empty_store [Idle "" []] [] None.

(** The same after "cat" settled and its search returned two titles. *)
Definition cat_done_widget : Widget :=
  run no_options
    [(2, Settle "cat"); (3, Response 0%nat (Loaded cat_response))]
    fresh_widget.

(** The same after "dogs" settled in turn: its search is pending. *)
Definition dogs_loading_widget : Widget :=
  step no_options 4 (Settle "dogs") cat_done_widget.

(** The items of the round-trip example of the specification. *)
Definition x_cat_items : list Suggestion :=
  [ mkSuggestion "Cat" None (Some "https://x/Cat") ].

(** A stored record with no [savedAt], and the store holding it. *)
Definition undated_record : json :=
  JObj [("term", JStr "cat"); ("items", JArr [])].

Definition undated_store : Storage :=
  mkStorage (Some (TextJson undated_record)) false false false.

(** A stored record with a string [term], an array [items] holding
    [null], and a number [savedAt], and the store holding it. *)
Definition null_item_record : json :=
  JObj [("term", JStr "x"); ("items", JArr [JNull]); ("savedAt", JNum 1000)].

Definition null_item_store : Storage :=
  mkStorage (Some (TextJson null_item_record)) false false false.

(** A stored record whose [savedAt] is [null], and the store holding it. *)
Definition null_savedAt_record : json :=
  JObj [("term", JStr "cat"); ("items", JArr []); ("savedAt", JNull)].

Definition null_savedAt_store : Storage :=
  mkStorage (Some (TextJson null_savedAt_record)) false false false.

(** Everything of a widget but its store. *)
Definition same_memory (w1 w2 : Widget) : Prop :=
  lastState w1 = lastState w2
  /\ activeIndex w1 = activeIndex w2
  /\ inner w1 = inner w2
  /\ next_id w1 = next_id w2
  /\ emitted w1 = emitted w2
  /\ requests w1 = requests w2
  /\ uncaught w1 = uncaught w2.

(** ** The page: the widget with the elements it renders into

    The definitions below add what the widget does to the DOM (the status
    label, the list, the attributes and text of the input), the click
    handler, and the windows it opens, around the functions above. *)

(** The [a] element built for one suggestion. *)
Record Anchor : Type := mkAnchor {
  textContent : string;
  href : string;
  target : string;
  rel : string
}.

(** The [li] element built for one suggestion. *)
Record Li : Type := mkLi {
  li_id : string;
  role : string;
  aria_selected : string;
  anchor : Anchor
}.

(** The three elements: the text and focus of the input and its two ARIA
    attributes ([None]: never set), the text of the status label, and the
    children of the list. *)
Record Dom : Type := mkDom {
  input_value : string;
  input_focused : bool;
  aria_expanded : option string;
  aria_activedescendant : option string;
  status_text : string;
  list_children : list Li
}.

(** [String(b)] of a boolean. *)
Definition Boolean_text (b : bool) : string :=
  if b then "true" else "false".

(** The decimal text of an index, as a template literal prints it. *)
Definition index_text (i : nat) : string :=
  NilEmpty.string_of_uint (Nat.to_uint i).

(** [clear(el)]: remove the first child while there is one. *)
Fixpoint clear (children : list Li) : list Li :=
  match children with
  | [] => []
  | _ :: rest => clear rest
  end.

(** The [li] the loop of [renderSuggestions] builds at index [i]. *)
Definition make_li (i : nat) (s : Suggestion) (activeIndex : Z) : Li :=
  {| li_id := "suggestion-" ++ index_text i;
     role := "option";
     aria_selected := Boolean_text (Z.of_nat i =? activeIndex);
     anchor := {| textContent := title s;
                  href := nullish (url s) "#";
                  target := "_blank";
                  rel := "noopener noreferrer" |} |}.

(** The [for] loop of [renderSuggestions] from index [i], over the items
    from [i] on: each round appends one [li] to the list. *)
Fixpoint append_items (i : nat) (rest : list Suggestion) (activeIndex : Z)
    (children : list Li) : list Li :=
  match rest with
  | [] => children
  | s :: rest' =>
      append_items (S i) rest' activeIndex
        (children ++ [make_li i s activeIndex])
  end.

(** [renderSuggestions(input, ul, items, activeIndex)] *)
Definition renderSuggestions (items : list Suggestion) (activeIndex : Z)
    (d : Dom) : Dom :=
  let children := clear (list_children d) in
  let hasItems := 0 <? len items in
  let children' := append_items 0 items activeIndex children in
  {| input_value := input_value d;
     input_focused := input_focused d;
     aria_expanded := Some (Boolean_text hasItems);
     aria_activedescendant :=
       Some (if (0 <=? activeIndex) && (activeIndex <? len items)
             then "suggestion-" ++ index_text (Z.to_nat activeIndex)
             else "");
     status_text := status_text d;
     list_children := children' |}.

(** [renderStatus(div, state)] *)
Definition renderStatus (state : SuggestState) (d : Dom) : Dom :=
  {| input_value := input_value d;
     input_focused := input_focused d;
     aria_expanded := aria_expanded d;
     aria_activedescendant := aria_activedescendant d;
     status_text :=
       if Kind_eqb (kind state) loading then "Loading…"
       else if Kind_eqb (kind state) error
            then "Error: " ++ nullish (error_message state) ""
            else "";
     list_children := list_children d |}.

(** [opts.input.value = text] *)
Definition set_input_value (text : string) (d : Dom) : Dom :=
  mkDom text (input_focused d) (aria_expanded d) (aria_activedescendant d)
    (status_text d) (list_children d).

(** [opts.input.blur()] *)
Definition blur (d : Dom) : Dom :=
  mkDom (input_value d) false (aria_expanded d) (aria_activedescendant d)
    (status_text d) (list_children d).

(** The bound widget with its elements and the urls it has opened in a
    new window. *)
Record Page : Type := mkPage {
  widget : Widget;
  dom : Dom;
  opened : list string
}.

(** What happens to a page: an event of the widget, or a click inside the
    list, on the anchor given ([None]: not on an anchor). *)
Inductive PageEvent : Type :=
| OfWidget (ev : Event)
| Click (a : option Anchor).

Definition widget_event (pe : PageEvent) : option Event :=
  match pe with
  | OfWidget ev => Some ev
  | Click _ => None
  end.

(** The callback of [state$.subscribe], with its two render calls. *)
Definition page_subscriber (opts : Options) (now : Z) (s : SuggestState)
    (p : Page) : Page :=
  {| widget := subscriber opts now s (widget p);
     dom := renderSuggestions (items s) (-1) (renderStatus s (dom p));
     opened := opened p |}.

Fixpoint page_deliver (opts : Options) (now : Z)
    (ns : list (Notification SuggestState)) (p : Page) : Page :=
  match ns with
  | [] => p
  | Next s :: rest => page_deliver opts now rest (page_subscriber opts now s p)
  | Complete :: _ => mkPage (set_inner None (widget p)) (dom p) (opened p)
  | Error e :: _ =>
      mkPage (set_uncaught e (set_inner None (widget p))) (dom p) (opened p)
  end.

Definition page_settle (opts : Options) (now : Z) (t : string) (p : Page)
  : Page :=
  let p0 := mkPage (set_inner None (widget p)) (dom p) (opened p) in
  match project opts t with
  | OfState s => page_deliver opts now (rx_of s) p0
  | SearchPipeline t' lim =>
      let p1 := page_deliver opts now [Next (Loading t' [])] p0 in
      mkPage (send_request t' lim (widget p1)) (dom p1) (opened p1)
  end.

Definition page_response (opts : Options) (now : Z) (id : nat)
    (r : AjaxOutcome) (p : Page) : Page :=
  match inner (widget p) with
  | Some (id', t) =>
      if Nat.eqb id id' then page_deliver opts now (inner_on_response t r) p
      else p
  | None => p
  end.

(** [applyActiveIndex(index)]: set the cursor and render the list again. *)
Definition page_applyActiveIndex (index : Z) (p : Page) : Page :=
  {| widget := applyActiveIndex index (widget p);
     dom := renderSuggestions (items (lastState (widget p))) index (dom p);
     opened := opened p |}.

(** [if (selected.url) window.open(selected.url, ...)] *)
Definition open_url (u : option string) (log : list string) : list string :=
  match u with
  | Some text => if String.eqb text "" then log else log ++ [text]
  | None => log
  end.

(** The [keydown] handler, with what it does to the elements. *)
Definition page_keydown (now : Z) (k : Key) (p : Page) : Page :=
  let w := widget p in
  let items := items (lastState w) in
  match k with
  | Escape =>
      let p' := page_applyActiveIndex (-1) p in
      mkPage (widget p') (blur (dom p')) (opened p')
  | ArrowDown =>
      page_applyActiveIndex (Z.min (activeIndex w + 1) (len items - 1)) p
  | ArrowUp =>
      page_applyActiveIndex (Z.max (activeIndex w - 1) (-1)) p
  | Enter =>
      if (0 <=? activeIndex w) && (activeIndex w <? len items) then
        match nth_error items (Z.to_nat (activeIndex w)) with
        | Some selected =>
            {| widget :=
                 run_store
                   (savePersisted (mkPersisted (title selected) items now)) w;
               dom := set_input_value (title selected) (dom p);
               opened := open_url (url selected) (opened p) |}
        | None => p
        end
      else p
  end.

(** The [click] handler of the list. *)
Definition page_click (now : Z) (a : option Anchor) (p : Page) : Page :=
  match a with
  | None => p
  | Some a =>
      let title := textContent a in
      let d := if String.eqb title "" then dom p
               else set_input_value title (dom p) in
      let w := widget p in
      let w' :=
        if negb (String.eqb title "") && (0 <? len (items (lastState w)))
        then run_store
               (savePersisted (mkPersisted title (items (lastState w)) now)) w
        else w in
      mkPage w' d (opened p)
  end.

Definition page_step (opts : Options) (now : Z) (pe : PageEvent) (p : Page)
  : Page :=
  match pe with
  | Click a => page_click now a p
  | OfWidget (Keydown k) => page_keydown now k p
  | OfWidget (Settle t) =>
      match uncaught (widget p) with
      | Some _ => p
      | None => page_settle opts now t p
      end
  | OfWidget (Response id r) =>
      match uncaught (widget p) with
      | Some _ => p
      | None => page_response opts now id r p
      end
  end.

Fixpoint page_run (opts : Options) (evs : list (Z * PageEvent)) (p : Page)
  : Page :=
  match evs with
  | [] => p
  | (now, pe) :: rest => page_run opts rest (page_step opts now pe p)
  end.

(** The widget events of a list of page events, in order. *)
Fixpoint widget_events (evs : list (Z * PageEvent)) : list (Z * Event) :=
  match evs with
  | [] => []
  | (now, OfWidget ev) :: rest => (now, ev) :: widget_events rest
  | (_, Click _) :: rest => widget_events rest
  end.

(** [renderSuggestions] on [n] restored items of which the one after
    [before] is [null]: the list is cleared, [aria-expanded] is set, one
    [li] is appended per item of [before], and reading the title of the
    [null] item throws, before [aria-activedescendant] is set. *)
Definition renderSuggestions_until_null (n : Z) (before : list Suggestion)
    (d : Dom) : Dom :=
  let children := clear (list_children d) in
  {| input_value := input_value d;
     input_focused := input_focused d;
     aria_expanded := Some (Boolean_text (0 <? n));
     aria_activedescendant := aria_activedescendant d;
     status_text := status_text d;
     list_children := append_items 0 before (-1) children |}.

(** How binding a page ends: with the page, or with an exception thrown
    to the caller, the store and the elements being left as they were
    when it was thrown. *)
Inductive PageBound : Type :=
| PageStarted (p : Page)
| PageThrew (e : Thrown) (st : Storage) (d : Dom).

(** The number of stored items. *)
Definition restored_length (parsed : json) : Z :=
  match prop parsed "items" with
  | Some (JArr xs) => len xs
  | _ => 0
  end.

(** [bindWikipediaAutosuggest(opts)] on the elements [d]: a restored
    snapshot is put into the input and rendered before the subscription
    renders the initial state. [None]: the restored items are not
    suggestions and are outside the model. *)
Definition page_bind (opts : Options) (now : Z) (st : Storage) (d : Dom)
  : option PageBound :=
  match loadPersisted now st with
  | (Threw e, st') => Some (PageThrew e st' d)
  | (Returned None, st') =>
      let s := initialState None in
      let w := mkWidget s (-1) None O st' [] [] None in
      Some (PageStarted (page_subscriber opts now s (mkPage w d [])))
  | (Returned (Some parsed), st') =>
      let t := restored_term parsed in
      match restored_items parsed with
      | Typed xs =>
          let s := initialState (Some (t, xs)) in
          let d' := renderSuggestions xs (-1)
                      (renderStatus s (set_input_value t d)) in
          let w := mkWidget s (-1) None O st' [] [] None in
          Some (PageStarted (page_subscriber opts now s (mkPage w d' [])))
      | NullItem before =>
          let s := initialState (Some (t, before)) in
          Some (PageThrew null_item_error st'
                  (renderSuggestions_until_null (restored_length parsed)
                     before (renderStatus s (set_input_value t d))))
      | Untyped => None
      end
  end.

(** The pages a bound page can become. *)
Inductive PageReachable (opts : Options) : Page -> Prop :=
| PageReachable_bind : forall now st d p,
    page_bind opts now st d = Some (PageStarted p) ->
    PageReachable opts p
| PageReachable_step : forall now pe p,
    PageReachable opts p ->
    PageReachable opts (page_step opts now pe p).

(** Rendering the widget's current state and cursor into [d]. *)
Definition render_current (w : Widget) (d : Dom) : Dom :=
  renderSuggestions (items (lastState w)) (activeIndex w)
    (renderStatus (lastState w) d).

(** [n] presses of one key. *)
Definition presses (n : nat) (k : Key) : list (Z * Event) :=
  repeat (0, Keydown k) n.

(** Elements before the widget is bound: an empty input, an empty status
    label and an empty list. *)
Definition blank_dom : Dom := mkDom "" true None None "" [].

(** The elements show the widget's current state and cursor: they are
    what rendering that state into some elements gives. *)
Definition shown (p : Page) : Prop :=
  exists d0, dom p = render_current (widget p) d0.

(** The page bound, with the default options, on the empty store and the
    blank elements. *)
Definition fresh_page : Page :=
  mkPage fresh_widget
    (renderSuggestions [] (-1) (renderStatus (Idle "" []) blank_dom)) [].

(** The same after "cat" settled and its search returned two titles. *)
Definition cat_done_page : Page :=
  page_run no_options
    [ (2, OfWidget (Settle "cat"));
      (3, OfWidget (Response 0%nat (Loaded cat_response))) ]
    fresh_page.

(** The same with the cursor moved down twice, onto "Category". *)
Definition category_selected_page : Page :=
  page_run no_options
    [ (4, OfWidget (Keydown ArrowDown)); (5, OfWidget (Keydown ArrowDown)) ]
    cat_done_page.

(** A store that works and holds the snapshot of "cat" written at time 3. *)
Definition cat_store : Storage :=
  mkStorage (Some (JSON_stringify (mkPersisted "cat" cat_items 3)))
    false false false.

(** ** Facts about the store operations *)

Lemma savePersisted_total (v : PersistedSuggestions) (st : Storage) :
  savePersisted v st
  = (Returned tt,
     if setItem_throws st then st
     else with_entry st (Some (JSON_stringify v))).
Proof.
  unfold savePersisted, try_catch, setItem, ret.
  destruct (setItem_throws st); reflexivity.
Qed.

Lemma clearPersisted_total (st : Storage) :
  clearPersisted st
  = (Returned tt, if removeItem_throws st then st else with_entry st None).
Proof.
  unfold clearPersisted, try_catch, removeItem, ret.
  destruct (removeItem_throws st); reflexivity.
Qed.

Lemma try_catch_ret_total {A : Type} (body : Store A) (a : A) (st : Storage) :
  exists r st', try_catch body (ret a) st = (Returned r, st').
Proof.
  unfold try_catch, ret.
  destruct (body st) as [[r | e] st']; eauto.
Qed.

Lemma loadPersisted_total (now : Z) (st : Storage) :
  exists restored st', loadPersisted now st = (Returned restored, st').
Proof. apply try_catch_ret_total. Qed.

Lemma loadPersisted_getItem_throws (now : Z) (st : Storage) :
  getItem_throws st = true ->
  loadPersisted now st = (Returned None, st).
Proof.
  intros H. unfold loadPersisted, try_catch, bind, getItem.
  rewrite H. reflexivity.
Qed.

Lemma loadPersisted_no_entry (now : Z) (st : Storage) :
  entry st = None ->
  loadPersisted now st = (Returned None, st).
Proof.
  intros H. unfold loadPersisted, try_catch, bind, getItem.
  rewrite H. destruct (getItem_throws st); reflexivity.
Qed.

(** What [loadPersisted] does with a stored record that passes the checks
    on [term] and [items], on a store that works, by the number its
    [savedAt] converts to. *)
Lemma loadPersisted_checked (now : Z) (st : Storage) (parsed : json)
    (saved : number) :
  getItem_throws st = false ->
  entry st = Some (TextJson parsed) ->
  truthy parsed = true ->
  is_string (prop parsed "term") = true ->
  isArray (prop parsed "items") = true ->
  ToNumber (prop parsed "savedAt") = Returned saved ->
  loadPersisted now st
  = if number_gtb (number_sub (Num now) saved) (Num PERSIST_TTL_MS)
    then (Returned None,
          if removeItem_throws st then st else with_entry st None)
    else (Returned (Some parsed), st).
Proof.
  intros Hget Hentry Htruthy Hterm Hitems Hsaved.
  unfold loadPersisted, try_catch, bind, getItem, lift.
  rewrite Hget, Hentry. cbn [JSON_parse].
  rewrite Htruthy, Hterm, Hitems, Hsaved. cbn [negb orb].
  destruct (number_gtb _ _); [| reflexivity].
  unfold removeItem, ret.
  destruct (removeItem_throws st); reflexivity.
Qed.

Lemma run_store_savePersisted (v : PersistedSuggestions) (w : Widget) :
  run_store (savePersisted v) w
  = set_storage (if setItem_throws (storage w) then storage w
                 else with_entry (storage w) (Some (JSON_stringify v))) w.
Proof. unfold run_store. rewrite savePersisted_total. reflexivity. Qed.

Lemma run_store_clearPersisted (w : Widget) :
  run_store clearPersisted w
  = set_storage (if removeItem_throws (storage w) then storage w
                 else with_entry (storage w) None) w.
Proof. unfold run_store. rewrite clearPersisted_total. reflexivity. Qed.

(** ** The JSON written for a snapshot reads back as the snapshot *)

Lemma Suggestion_of_json_to_json (s : Suggestion) :
  Suggestion_of_json (Suggestion_to_json s) = Some s.
Proof.
  destruct s as [t [d |] [u |]]; reflexivity.
Qed.

Lemma string_field_eq (k : string) (f : string * json) (s : string) :
  string_field k f = Some s -> f = (k, JStr s).
Proof.
  destruct f as [k' [| b | n | s' | xs | fs]]; cbn; try discriminate.
  destruct (String.eqb_spec k k') as [-> | _]; [| discriminate].
  now intros [= ->].
Qed.

(** Reading an item at the type [Suggestion] loses nothing: it succeeds
    only on the JSON of the suggestion it returns. *)
Lemma Suggestion_of_json_exact (v : json) (s : Suggestion) :
  Suggestion_of_json v = Some s -> v = Suggestion_to_json s.
Proof.
  destruct v as [| b | n | str | xs | [| ft rest]]; cbn; try discriminate.
  destruct (string_field "title" ft) as [t |] eqn:Et; [| discriminate].
  apply string_field_eq in Et. subst ft.
  destruct rest as [| f1 [| f2 [| f3 rest]]].
  - now intros [= <-].
  - destruct (string_field "description" f1) as [d |] eqn:Ed.
    + apply string_field_eq in Ed. subst f1. now intros [= <-].
    + destruct (string_field "url" f1) as [u |] eqn:Eu; [| discriminate].
      apply string_field_eq in Eu. subst f1. now intros [= <-].
  - destruct (string_field "description" f1) as [d |] eqn:Ed;
      [| discriminate].
    destruct (string_field "url" f2) as [u |] eqn:Eu; [| discriminate].
    apply string_field_eq in Ed, Eu. subst f1 f2. now intros [= <-].
  - discriminate.
Qed.

Lemma items_as_Suggestions_to_json (xs : list Suggestion) :
  items_as_Suggestions (map Suggestion_to_json xs) = Typed xs.
Proof.
  induction xs as [| s xs IH]; [reflexivity |].
  cbn [map items_as_Suggestions].
  change (Suggestion_to_json s) with
    (JObj (("title", JStr (title s))
             :: optional_field "description" (description s)
             ++ optional_field "url" (url s))).
  cbv iota. fold (Suggestion_to_json s).
  now rewrite Suggestion_of_json_to_json, IH.
Qed.

Lemma items_as_Suggestions_typed (js : list json) (xs : list Suggestion) :
  items_as_Suggestions js = Typed xs -> js = map Suggestion_to_json xs.
Proof.
  revert xs. induction js as [| j js IH]; intros xs; cbn.
  - now intros [= <-].
  - destruct j; try discriminate.
    match goal with |- context [Suggestion_of_json ?v] =>
      destruct (Suggestion_of_json v) as [s |] eqn:Es; [| discriminate];
      apply Suggestion_of_json_exact in Es end.
    destruct (items_as_Suggestions js) as [ss | before |];
      try discriminate.
    intros [= <-]. cbn. now rewrite Es, (IH ss).
Qed.

Lemma restored_items_to_json (v : PersistedSuggestions) :
  restored_items (PersistedSuggestions_to_json v) = Typed (p_items v).
Proof.
  unfold restored_items. cbn. apply items_as_Suggestions_to_json.
Qed.

Lemma restored_term_to_json (v : PersistedSuggestions) :
  restored_term (PersistedSuggestions_to_json v) = p_term v.
Proof. reflexivity. Qed.

(** ** toSuggestions is the positional zip *)

Lemma toSuggestions_loop_spec (titles descriptions urls : list string) :
  forall (fuel i : nat) (out : list Suggestion),
    toSuggestions_loop fuel i titles descriptions urls out
    = (out ++ map (suggestion_at titles descriptions urls) (seq i fuel))%list.
Proof.
  induction fuel as [| fuel IH]; intros i out; cbn [toSuggestions_loop seq map].
  - now rewrite app_nil_r.
  - rewrite IH, <- app_assoc. reflexivity.
Qed.

Lemma toSuggestions_seq (q : string) (titles descriptions urls : list string) :
  toSuggestions (q, titles, descriptions, urls)
  = map (suggestion_at titles descriptions urls)
      (seq 0 (Nat.min (List.length titles)
                (Nat.min (List.length descriptions) (List.length urls)))).
Proof.
  unfold toSuggestions. now rewrite toSuggestions_loop_spec.
Qed.

(** C5. For every response tuple [(queryEcho, titles, descriptions, urls)],
    [toSuggestions] does not depend on [queryEcho], returns exactly
    [n = min(|titles|, |descriptions|, |urls|)] suggestions, and its i-th
    suggestion, for every [i < n], is
    [{title: titles[i], description: descriptions[i], url: urls[i]}]: the
    provider's order is kept. *)
Theorem toSuggestions_zips_to_shortest :
  forall (queryEcho : string) (titles descriptions urls : list string),
    let n := Nat.min (List.length titles)
               (Nat.min (List.length descriptions) (List.length urls)) in
    let out := toSuggestions (queryEcho, titles, descriptions, urls) in
    (forall queryEcho' : string,
        toSuggestions (queryEcho', titles, descriptions, urls) = out)
    /\ List.length out = n
    /\ forall i : nat, (i < n)%nat ->
         exists t d u : string,
           nth_error titles i = Some t
           /\ nth_error descriptions i = Some d
           /\ nth_error urls i = Some u
           /\ nth_error out i = Some (mkSuggestion t (Some d) (Some u)).
Proof.
  intros q titles descriptions urls n out. subst out.
  split; [| split].
  - intros q'. now rewrite !toSuggestions_seq.
  - rewrite toSuggestions_seq, length_map, length_seq. reflexivity.
  - intros i Hi.
    assert (Ht : (i < List.length titles)%nat) by (subst n; lia).
    assert (Hd : (i < List.length descriptions)%nat) by (subst n; lia).
    assert (Hu : (i < List.length urls)%nat) by (subst n; lia).
    destruct (nth_error titles i) as [t |] eqn:Et;
      [| apply nth_error_None in Et; lia].
    destruct (nth_error descriptions i) as [d |] eqn:Ed;
      [| apply nth_error_None in Ed; lia].
    destruct (nth_error urls i) as [u |] eqn:Eu;
      [| apply nth_error_None in Eu; lia].
    exists t, d, u. do 3 (split; [reflexivity |]).
    rewrite toSuggestions_seq.
    rewrite nth_error_map, nth_error_seq.
    fold n. destruct (Nat.ltb_spec i n) as [_ | Hge]; [| lia].
    cbn [option_map Nat.add]. unfold suggestion_at.
    rewrite Ed, Eu. f_equal. f_equal.
    now apply nth_error_nth.
Qed.

(** ** What one event does to the widget *)

(** The state an ended request turns into, for the term [t] of the inner
    subscription. *)
Lemma inner_on_response_eq (t : string) (r : AjaxOutcome) :
  inner_on_response t r
  = [ Next match r with
           | Loaded data => Done t (toSuggestions data)
           | Failed e => Errored t [] (error_text e)
           end;
      Complete ].
Proof. destruct r; reflexivity. Qed.

Lemma subscriber_frame (opts : Options) (now : Z) (s : SuggestState)
    (w : Widget) :
  exists st',
    subscriber opts now s w
    = mkWidget s (-1) (inner w) (next_id w) st' (emitted w ++ [s])
        (requests w) (uncaught w).
Proof.
  unfold subscriber.
  rewrite run_store_savePersisted.
  destruct (Kind_eqb (kind s) done && (0 <? len (items s)));
    destruct (Kind_eqb (kind s) idle && (strlen (term s) <? minLength opts));
    try rewrite run_store_clearPersisted;
    eexists; reflexivity.
Qed.

Lemma settle_short (opts : Options) (now : Z) (t : string) (w : Widget) :
  strlen t < minLength opts ->
  exists st',
    settle opts now t w
    = mkWidget (Idle t []) (-1) None (next_id w) st'
        (emitted w ++ [Idle t []]) (requests w) (uncaught w).
Proof.
  intros Hlen. unfold settle, project.
  apply Z.ltb_lt in Hlen. rewrite Hlen. cbn [deliver rx_of].
  destruct (subscriber_frame opts now (Idle t []) (set_inner None w))
    as [st' ->].
  exists st'. reflexivity.
Qed.

Lemma settle_long (opts : Options) (now : Z) (t : string) (w : Widget) :
  minLength opts <= strlen t ->
  exists st',
    settle opts now t w
    = mkWidget (Loading t []) (-1) (Some (next_id w, t)) (S (next_id w)) st'
        (emitted w ++ [Loading t []])
        (requests w ++ [mkRequest (next_id w) t (limit opts)]) (uncaught w).
Proof.
  intros Hlen. unfold settle, project.
  apply Z.ltb_ge in Hlen. rewrite Hlen. cbn [deliver].
  destruct (subscriber_frame opts now (Loading t []) (set_inner None w))
    as [st' ->].
  exists st'. reflexivity.
Qed.

Lemma response_current (opts : Options) (now : Z) (id : nat) (t : string)
    (r : AjaxOutcome) (w : Widget) :
  inner w = Some (id, t) ->
  exists st',
    response opts now id r w
    = let s := match r with
               | Loaded data => Done t (toSuggestions data)
               | Failed e => Errored t [] (error_text e)
               end in
      mkWidget s (-1) None (next_id w) st' (emitted w ++ [s])
        (requests w) (uncaught w).
Proof.
  intros Hinner. unfold response. rewrite Hinner, Nat.eqb_refl.
  rewrite inner_on_response_eq. cbn [deliver].
  match goal with |- context [subscriber opts now ?s w] =>
    destruct (subscriber_frame opts now s w) as [st' ->] end.
  exists st'. reflexivity.
Qed.

Lemma response_stale (opts : Options) (now : Z) (id : nat)
    (r : AjaxOutcome) (w : Widget) :
  (forall t, inner w <> Some (id, t)) ->
  response opts now id r w = w.
Proof.
  intros Hinner. unfold response.
  destruct (inner w) as [[id' t] |]; [| reflexivity].
  destruct (Nat.eqb_spec id id') as [-> | _]; [| reflexivity].
  now contradiction (Hinner t).
Qed.

Lemma keydown_frame (now : Z) (k : Key) (w : Widget) :
  exists index st',
    keydown now k w
    = mkWidget (lastState w) index (inner w) (next_id w) st' (emitted w)
        (requests w) (uncaught w).
Proof.
  destruct w as [s a i n st em rq u].
  destruct k; cbn [keydown applyActiveIndex set_activeIndex lastState
                     activeIndex inner next_id storage emitted requests
                     uncaught]; try (eexists; eexists; reflexivity).
  destruct ((0 <=? a) && (a <? len (items s)));
    [| eexists; eexists; reflexivity].
  destruct (nth_error (items s) (Z.to_nat a));
    [| eexists; eexists; reflexivity].
  rewrite run_store_savePersisted. eexists; eexists; reflexivity.
Qed.

Lemma keydown_cursor (now : Z) (k : Key) (w : Widget) :
  cursor_in_range w ->
  -1 <= activeIndex (keydown now k w) <= len (items (lastState w)) - 1.
Proof.
  unfold cursor_in_range. intros Hw.
  destruct k; cbn [keydown applyActiveIndex set_activeIndex activeIndex];
    try lia.
  destruct ((0 <=? activeIndex w)
            && (activeIndex w <? len (items (lastState w))));
    [| exact Hw].
  destruct (nth_error _ _); [| exact Hw].
  rewrite run_store_savePersisted. exact Hw.
Qed.

(** ** Invariants of the reachable widgets *)

Lemma subscribe_initial_frame (opts : Options) (now : Z) (st : Storage)
    (s : SuggestState) :
  exists st',
    subscribe_initial opts now st s
    = mkWidget s (-1) None O st' [s] [] None.
Proof.
  unfold subscribe_initial.
  match goal with |- context [subscriber opts now s ?w0] =>
    destruct (subscriber_frame opts now s w0) as [st' ->] end.
  exists st'. reflexivity.
Qed.

Lemma bind_frame (opts : Options) (now : Z) (st : Storage) (w : Widget) :
  bindWikipediaAutosuggest opts now st = Some (Returned w) ->
  exists restored st',
    w = mkWidget (initialState restored) (-1) None O st'
          [initialState restored] [] None.
Proof.
  unfold bindWikipediaAutosuggest.
  destruct (loadPersisted now st) as [[[parsed |] | e] st1];
    [| | discriminate].
  - destruct (restored_items parsed) as [xs | before |]; try discriminate.
    intros [= <-].
    match goal with |- context [subscribe_initial opts now st1 ?s] =>
      destruct (subscribe_initial_frame opts now st1 s) as [st' ->] end.
    now exists (Some (restored_term parsed, xs)), st'.
  - intros [= <-].
    match goal with |- context [subscribe_initial opts now st1 ?s] =>
      destruct (subscribe_initial_frame opts now st1 s) as [st' ->] end.
    now exists None, st'.
Qed.

Lemma step_cases (opts : Options) (now : Z) (ev : Event) (w : Widget) :
  uncaught w = None ->
  (exists s st' i n rq,
      step opts now ev w
      = mkWidget s (-1) i n st' (emitted w ++ [s]) rq None
      /\ (next_id w <= n)%nat
      /\ match ev with
         | Settle t =>
             term s = t
             /\ (i = None \/ (i = Some (next_id w, t) /\ n = S (next_id w)))
         | Response id r =>
             inner w = Some (id, term s) /\ i = None
         | Keydown _ => False
         end)
  \/ (exists index st',
         is_settle ev = false
         /\ step opts now ev w
            = mkWidget (lastState w) index (inner w) (next_id w) st'
                (emitted w) (requests w) None
         /\ (cursor_in_range w ->
             -1 <= index <= len (items (lastState w)) - 1)).
Proof.
  intros Hu. destruct ev as [t | id r | k]; cbn [step]; try rewrite Hu.
  - left. destruct (Z.lt_ge_cases (strlen t) (minLength opts)) as [Hlt | Hge].
    + destruct (settle_short opts now t w Hlt) as [st' ->]. rewrite Hu.
      do 5 eexists. split; [reflexivity |]. cbn. auto.
    + destruct (settle_long opts now t w Hge) as [st' ->]. rewrite Hu.
      do 5 eexists. split; [reflexivity |]. cbn. auto.
  - destruct (inner w) as [[id' t] |] eqn:Hinner.
    + destruct (Nat.eq_dec id id') as [-> | Hne].
      * left. destruct (response_current opts now id' t r w Hinner)
          as [st' ->]. rewrite Hu. cbv zeta.
        do 5 eexists. split; [reflexivity |].
        split; [lia |]. destruct r; cbn; auto.
      * right. rewrite response_stale
          by (intros t' E; rewrite Hinner in E; congruence).
        destruct w as [s a i n st em rq u]; cbn in *; subst u.
        exists a, st. subst i. auto.
    + right. rewrite response_stale by (rewrite Hinner; discriminate).
      destruct w as [s a i n st em rq u]; cbn in *; subst u i.
      exists a, st. auto.
  - right. destruct (keydown_frame now k w) as (index & st' & E).
    exists index, st'. split; [reflexivity |]. split; [congruence |].
    assert (Hi : index = activeIndex (keydown now k w))
      by (rewrite E; reflexivity).
    rewrite Hi. apply keydown_cursor.
Qed.

Lemma reachable_invariant (opts : Options) (w : Widget) :
  Reachable opts w ->
  uncaught w = None
  /\ cursor_in_range w
  /\ forall id t, inner w = Some (id, t) ->
       (id < next_id w)%nat /\ term (lastState w) = t.
Proof.
  induction 1 as [now st w Hbind | now ev w _ (Hu & Hc & Hi)].
  - destruct (bind_frame opts now st w Hbind) as (restored & st' & ->).
    unfold cursor_in_range. cbn. unfold len.
    split; [reflexivity |]. split; [lia | discriminate].
  - destruct (step_cases opts now ev w Hu)
      as [(s & st' & i & n & rq & -> & Hn & Hev)
         | (index & st' & _ & -> & Hidx)];
      unfold cursor_in_range; cbn.
    + split; [reflexivity |]. split; [unfold len; lia |].
      intros id t Hinner. subst i.
      destruct ev as [t' | id' r | k].
      * destruct Hev as (Ht & [Hnone | (Hsome & ->)]); [discriminate |].
        injection Hsome as -> ->. split; [lia | exact Ht].
      * destruct Hev as (_ & Hnone). discriminate.
      * contradiction.
    + split; [reflexivity |]. split; [exact (Hidx Hc) | exact Hi].
Qed.

Lemma reachable_run (opts : Options) (evs : list (Z * Event)) :
  forall w, Reachable opts w -> Reachable opts (run opts evs w).
Proof.
  induction evs as [| [now ev] evs IH]; intros w Hw; cbn [run].
  - exact Hw.
  - apply IH. now apply Reachable_step.
Qed.

Lemma fresh_widget_bound :
  bindWikipediaAutosuggest no_options 1 empty_store
  = Some (Returned fresh_widget).
Proof. reflexivity. Qed.

Lemma fresh_widget_reachable : Reachable no_options fresh_widget.
Proof. exact (Reachable_bind _ _ _ _ fresh_widget_bound). Qed.

Lemma cat_done_widget_reachable : Reachable no_options cat_done_widget.
Proof. apply reachable_run, fresh_widget_reachable. Qed.


(** ** The state machine *)


(** C2, as the code has it. For every settled term [t] with
    [minLength <= len(t)], the state emitted when [t] settles is
    [loading(t, [])], whatever the items of the state that was current
    before; the request [(t, limit)] is then made and is the one
    [switchMap] waits for. *)
Theorem loading_starts_with_no_items :
  forall (opts : Options) (w : Widget) (now : Z) (t : string),
    Reachable opts w ->
    minLength opts <= strlen t ->
    let w' := step opts now (Settle t) w in
    lastState w' = Loading t []
    /\ emitted w' = (emitted w ++ [Loading t []])%list
    /\ requests w'
       = (requests w ++ [mkRequest (next_id w) t (limit opts)])%list
    /\ inner w' = Some (next_id w, t).
Proof.
  intros opts w now t Hw Hlen w'. subst w'.
  destruct (reachable_invariant opts w Hw) as (Hu & _ & _).
  cbn [step]. rewrite Hu.
  destruct (settle_long opts now t w Hlen) as [st' ->]. cbn. auto.
Qed.

(** C3, as the code has it. When the request of the term [t] that
    [switchMap] waits for fails with [e], the state becomes
    [error(t, [], message)], where [message] is [e.message] for an [Error]
    and [String(e)] otherwise; nothing is thrown past the state machine,
    then or after any later events. *)
Theorem failure_becomes_error_state :
  forall (opts : Options) (w : Widget) (now : Z) (id : nat) (t : string)
         (e : Thrown),
    Reachable opts w ->
    inner w = Some (id, t) ->
    let w' := step opts now (Response id (Failed e)) w in
    lastState w' = Errored t [] (error_text e)
    /\ emitted w' = (emitted w ++ [Errored t [] (error_text e)])%list
    /\ (forall m, e = ThrownError m -> error_text e = m)
    /\ forall evs, uncaught (run opts evs w') = None.
Proof.
  intros opts w now id t e Hw Hinner w'.
  assert (Hw' : Reachable opts w') by now apply Reachable_step.
  subst w'.
  destruct (reachable_invariant opts w Hw) as (Hu & _ & _).
  split; [| split; [| split]].
  - cbn [step]. rewrite Hu.
    destruct (response_current opts now id t (Failed e) w Hinner) as [st' ->].
    reflexivity.
  - cbn [step]. rewrite Hu.
    destruct (response_current opts now id t (Failed e) w Hinner) as [st' ->].
    reflexivity.
  - intros m ->. reflexivity.
  - intros evs.
    now destruct (reachable_invariant opts _ (reachable_run opts evs _ Hw')).
Qed.

(** C4. For every settled term [t] shorter than [minLength] (3 when the
    option is not given), the resulting state is exactly [idle(t, [])],
    no provider call is made for [t], and no search is pending. *)
Theorem short_term_is_idle_without_call :
  forall (opts : Options) (w : Widget) (now : Z) (t : string),
    Reachable opts w ->
    strlen t < minLength opts ->
    let w' := step opts now (Settle t) w in
    lastState w' = Idle t []
    /\ emitted w' = (emitted w ++ [Idle t []])%list
    /\ requests w' = requests w
    /\ inner w' = None
    /\ (opt_minLength opts = None -> minLength opts = 3).
Proof.
  intros opts w now t Hw Hlen w'. subst w'.
  destruct (reachable_invariant opts w Hw) as (Hu & _ & _).
  cbn [step]. rewrite Hu.
  destruct (settle_short opts now t w Hlen) as [st' ->]. cbn.
  repeat split. unfold minLength. now intros ->.
Qed.


(** ** Persistence and restore *)

Lemma prop_some_truthy (parsed : json) (k : string) (v : json) :
  prop parsed k = Some v -> truthy parsed = true.
Proof. destruct parsed; cbn; intros H; try discriminate; reflexivity. Qed.

Lemma is_string_truthy (parsed : json) (k : string) :
  is_string (prop parsed k) = true -> truthy parsed = true.
Proof.
  destruct (prop parsed k) as [v |] eqn:E; [| discriminate].
  intros _. exact (prop_some_truthy _ _ _ E).
Qed.

Lemma bind_of_load_none (opts : Options) (now : Z) (st st1 : Storage) :
  loadPersisted now st = (Returned None, st1) ->
  exists st',
    bindWikipediaAutosuggest opts now st
    = Some (Returned (mkWidget (Idle "" []) (-1) None O st'
                        [Idle "" []] [] None)).
Proof.
  intros Hload. unfold bindWikipediaAutosuggest. rewrite Hload.
  destruct (subscribe_initial_frame opts now st1 (initialState None))
    as [st' ->].
  exists st'. reflexivity.
Qed.

Lemma bind_of_load_typed (opts : Options) (now : Z) (st st1 : Storage)
    (parsed : json) (xs : list Suggestion) :
  loadPersisted now st = (Returned (Some parsed), st1) ->
  restored_items parsed = Typed xs ->
  exists st',
    bindWikipediaAutosuggest opts now st
    = Some (Returned (mkWidget (Done (restored_term parsed) xs) (-1) None O
                        st' [Done (restored_term parsed) xs] [] None)).
Proof.
  intros Hload Hitems. unfold bindWikipediaAutosuggest.
  rewrite Hload, Hitems.
  match goal with |- context [subscribe_initial opts now st1 ?s] =>
    destruct (subscribe_initial_frame opts now st1 s) as [st' ->] end.
  exists st'. reflexivity.
Qed.

(** The earlier draft returns a well-formed snapshot whatever its age. *)
Lemma earlier_draft_has_no_expiry (st : Storage) (parsed : json) :
  getItem_throws st = false ->
  entry st = Some (TextJson parsed) ->
  is_string (prop parsed "term") = true ->
  isArray (prop parsed "items") = true ->
  EarlierDraft.loadPersisted st = (Returned (Some parsed), st).
Proof.
  intros Hget Hentry Hterm Hitems.
  unfold EarlierDraft.loadPersisted, try_catch, bind, getItem, lift.
  rewrite Hget, Hentry. cbn [JSON_parse].
  rewrite (is_string_truthy _ _ Hterm), Hterm, Hitems. reflexivity.
Qed.

(** C6, as the code has it. In the draft with the retention window,
    take a stored record whose [term] is a string, whose [items] is an
    array and whose [savedAt] is a number, on a store whose read works.
    If [now - savedAt] exceeds 30 minutes, the startup read returns
    nothing, the initial state is [idle("", [])], and the record is
    removed from the store when the store's remove works (it stays when
    the remove throws). If [now - savedAt] is at most 30 minutes, the read
    returns the record and leaves the store alone, and when the items are
    suggestions as the widget writes them the initial state is
    [done(term, items)]. In the earlier draft that persists, the read
    returns the record whatever its age. *)
Theorem snapshot_is_used_within_30_minutes_only :
  forall (opts : Options) (now : Z) (st : Storage) (parsed : json)
         (t : string) (xs : list json) (z : Z),
    getItem_throws st = false ->
    entry st = Some (TextJson parsed) ->
    prop parsed "term" = Some (JStr t) ->
    prop parsed "items" = Some (JArr xs) ->
    prop parsed "savedAt" = Some (JNum z) ->
    PERSIST_TTL_MS = 30 * 60 * 1000
    /\ (PERSIST_TTL_MS < now - z ->
        loadPersisted now st
        = (Returned None,
           if removeItem_throws st then st else with_entry st None)
        /\ exists w,
             bindWikipediaAutosuggest opts now st = Some (Returned w)
             /\ lastState w = Idle "" []
             /\ emitted w = [Idle "" []])
    /\ (now - z <= PERSIST_TTL_MS ->
        loadPersisted now st = (Returned (Some parsed), st)
        /\ forall items : list Suggestion,
             xs = map Suggestion_to_json items ->
             exists w,
               bindWikipediaAutosuggest opts now st = Some (Returned w)
               /\ lastState w = Done t items
               /\ emitted w = [Done t items])
    /\ EarlierDraft.loadPersisted st = (Returned (Some parsed), st).
Proof.
  intros opts now st parsed t xs z Hget Hentry Hterm Hitems Hsaved.
  assert (Hload := loadPersisted_checked now st parsed (Num z) Hget Hentry
                     (prop_some_truthy _ _ _ Hterm)).
  rewrite Hterm, Hitems, Hsaved in Hload.
  specialize (Hload eq_refl eq_refl eq_refl).
  cbn [number_sub number_gtb] in Hload.
  split; [reflexivity |]. split; [| split].
  - intros Hage. apply Z.ltb_lt in Hage. rewrite Hage in Hload.
    split; [exact Hload |].
    destruct (bind_of_load_none opts _ _ _ Hload) as [st' ->].
    eexists. split; [reflexivity |]. cbn. auto.
  - intros Hage. apply Z.ltb_ge in Hage. rewrite Hage in Hload.
    split; [exact Hload |].
    intros items ->.
    assert (Hread : restored_items parsed = Typed items).
    { unfold restored_items. rewrite Hitems.
      apply items_as_Suggestions_to_json. }
    destruct (bind_of_load_typed opts _ _ _ _ _ Hload Hread) as [st' ->].
    eexists. split; [reflexivity |].
    unfold restored_term, string_prop. rewrite Hterm. cbn. auto.
  - apply earlier_draft_has_no_expiry; try assumption.
    + now rewrite Hterm.
    + now rewrite Hitems.
Qed.

(** C7. Round trip. When the subscriber receives [done(s, xs)] with [xs]
    not empty at time [now], on a store that works, it writes
    [{term: s, items: xs, savedAt: now}]; a reload at a time [now'] within
    30 minutes of [now] reads that snapshot back, with term [s] and items
    [xs], and the initial state of the reloaded widget is [done(s, xs)]. *)
Theorem persisted_done_state_is_restored :
  forall (opts opts' : Options) (w : Widget) (now now' : Z) (s : string)
         (xs : list Suggestion),
    xs <> [] ->
    setItem_throws (storage w) = false ->
    getItem_throws (storage w) = false ->
    now' - now <= PERSIST_TTL_MS ->
    let snapshot := PersistedSuggestions_to_json (mkPersisted s xs now) in
    let st := storage (subscriber opts now (Done s xs) w) in
    entry st = Some (TextJson snapshot)
    /\ loadPersisted now' st = (Returned (Some snapshot), st)
    /\ restored_term snapshot = s
    /\ restored_items snapshot = Typed xs
    /\ exists w',
         bindWikipediaAutosuggest opts' now' st = Some (Returned w')
         /\ lastState w' = Done s xs.
Proof.
  intros opts opts' w now now' s xs Hxs Hset Hget Hage snapshot st.
  assert (Hst : st = with_entry (storage w) (Some (TextJson snapshot))).
  { subst st. unfold subscriber. cbn [kind items term Done Kind_eqb andb].
    replace (0 <? len xs) with true
      by (destruct xs; [contradiction | reflexivity]).
    rewrite run_store_savePersisted. cbn [storage receive set_storage].
    rewrite Hset. reflexivity. }
  assert (Hload : loadPersisted now' st = (Returned (Some snapshot), st)).
  { rewrite (loadPersisted_checked now' st snapshot (Num now));
      try reflexivity; try (rewrite Hst; assumption || reflexivity).
    cbn [number_sub number_gtb].
    apply Z.ltb_ge in Hage. now rewrite Hage. }
  split; [rewrite Hst; reflexivity |].
  split; [exact Hload |].
  split; [reflexivity |].
  split; [apply (restored_items_to_json (mkPersisted s xs now)) |].
  destruct (bind_of_load_typed opts' _ _ _ _ _ Hload
              (restored_items_to_json (mkPersisted s xs now))) as [st' ->].
  eexists. split; reflexivity.
Qed.

Lemma step_same_memory (opts : Options) (now : Z) (ev : Event)
    (w1 w2 : Widget) :
  same_memory w1 w2 ->
  same_memory (step opts now ev w1) (step opts now ev w2).
Proof.
  destruct w1 as [s a i n st1 em rq u], w2 as [s2 a2 i2 n2 st2 em2 rq2 u2].
  unfold same_memory at 1. cbn.
  intros (<- & <- & <- & <- & <- & <- & <-).
  set (w1 := mkWidget s a i n st1 em rq u).
  set (w2 := mkWidget s a i n st2 em rq u).
  destruct ev as [t | id r | k]; cbn [step].
  - cbn [uncaught w1 w2]. destruct u; [repeat split |].
    destruct (Z.lt_ge_cases (strlen t) (minLength opts)) as [Hlt | Hge].
    + destruct (settle_short opts now t w1 Hlt) as [st1' ->].
      destruct (settle_short opts now t w2 Hlt) as [st2' ->].
      repeat split.
    + destruct (settle_long opts now t w1 Hge) as [st1' ->].
      destruct (settle_long opts now t w2 Hge) as [st2' ->].
      repeat split.
  - cbn [uncaught w1 w2]. destruct u; [repeat split |].
    destruct i as [[id' t] |]; [destruct (Nat.eq_dec id id') as [-> | Hne] |].
    + destruct (response_current opts now id' t r w1 eq_refl) as [st1' ->].
      destruct (response_current opts now id' t r w2 eq_refl) as [st2' ->].
      repeat split.
    + rewrite !response_stale by (cbn; congruence). repeat split.
    + rewrite !response_stale by (cbn; congruence). repeat split.
  - subst w1 w2.
    destruct k; cbn [keydown applyActiveIndex set_activeIndex lastState
                       activeIndex inner next_id storage emitted requests
                       uncaught]; try (repeat split; fail).
    destruct ((0 <=? a) && (a <? len (items s))); [| repeat split].
    destruct (nth_error (items s) (Z.to_nat a)); [| repeat split].
    rewrite !run_store_savePersisted. repeat split.
Qed.

Lemma run_same_memory (opts : Options) (evs : list (Z * Event)) :
  forall w1 w2,
    same_memory w1 w2 ->
    same_memory (run opts evs w1) (run opts evs w2).
Proof.
  induction evs as [| [now ev] evs IH]; intros w1 w2 H; cbn [run].
  - exact H.
  - apply IH. now apply step_same_memory.
Qed.

(** What [loadPersisted] returns depends on the entry and on whether the
    read throws, not on whether writing or removing would. *)
Lemma loadPersisted_value_only_reads (now : Z) (st1 st2 : Storage) :
  entry st1 = entry st2 ->
  getItem_throws st1 = getItem_throws st2 ->
  fst (loadPersisted now st1) = fst (loadPersisted now st2).
Proof.
  destruct st1 as [e1 g1 s1 r1], st2 as [e2 g2 s2 r2]. cbn.
  intros <- <-.
  unfold loadPersisted, try_catch, bind, getItem, lift, ret. cbn.
  destruct g1; [reflexivity |].
  destruct e1 as [[| | parsed] |]; cbn [JSON_parse]; try reflexivity.
  destruct (negb (truthy parsed) || _ || _); [reflexivity |].
  destruct (ToNumber (prop parsed "savedAt")) as [saved | e];
    [| reflexivity].
  destruct (number_gtb _ _); [| reflexivity].
  unfold removeItem. cbn. now destruct r1, r2.
Qed.

(** C9. Whatever the store does, [savePersisted] and [clearPersisted]
    return normally and [loadPersisted] returns a value, which is [null]
    when the read throws and when the removal of an expired record
    throws. With a store whose read throws, binding returns a widget
    with the same in-memory state as with the empty store. Whether
    writing and removing throw changes neither how binding ends nor the
    in-memory state it starts from. No exception escapes any reachable
    widget; and two widgets that differ only in their stores still
    differ only in their stores after any events. *)
Theorem store_failures_never_propagate :
  forall opts : Options,
    (forall v st, exists st', savePersisted v st = (Returned tt, st'))
    /\ (forall st, exists st', clearPersisted st = (Returned tt, st'))
    /\ (forall now st, exists restored st',
          loadPersisted now st = (Returned restored, st'))
    /\ (forall now st, getItem_throws st = true ->
          loadPersisted now st = (Returned None, st))
    /\ (forall now st parsed z,
          getItem_throws st = false ->
          entry st = Some (TextJson parsed) ->
          is_string (prop parsed "term") = true ->
          isArray (prop parsed "items") = true ->
          ToNumber (prop parsed "savedAt") = Returned (Num z) ->
          PERSIST_TTL_MS < now - z ->
          removeItem_throws st = true ->
          loadPersisted now st = (Returned None, st))
    /\ (forall now st,
          getItem_throws st = true ->
          exists w w0,
            bindWikipediaAutosuggest opts now st = Some (Returned w)
            /\ bindWikipediaAutosuggest opts now empty_store
               = Some (Returned w0)
            /\ same_memory w w0)
    /\ (forall now st1 st2,
          entry st1 = entry st2 ->
          getItem_throws st1 = getItem_throws st2 ->
          match bindWikipediaAutosuggest opts now st1,
                bindWikipediaAutosuggest opts now st2 with
          | Some (Returned w1), Some (Returned w2) => same_memory w1 w2
          | Some (Threw e1), Some (Threw e2) => e1 = e2
          | None, None => True
          | _, _ => False
          end)
    /\ (forall w, Reachable opts w -> uncaught w = None)
    /\ (forall evs w1 w2,
          same_memory w1 w2 ->
          same_memory (run opts evs w1) (run opts evs w2)).
Proof.
  intros opts.
  split; [intros v st; rewrite savePersisted_total; eauto |].
  split; [intros st; rewrite clearPersisted_total; eauto |].
  split; [exact loadPersisted_total |].
  split; [exact loadPersisted_getItem_throws |].
  split.
  { intros now st parsed z Hget Hentry Hterm Hitems Hsaved Hage Hrem.
    rewrite (loadPersisted_checked now st parsed (Num z) Hget Hentry
               (is_string_truthy _ _ Hterm) Hterm Hitems Hsaved).
    cbn [number_sub number_gtb].
    apply Z.ltb_lt in Hage. now rewrite Hage, Hrem. }
  split.
  { intros now st Hthrows.
    destruct (bind_of_load_none opts now st st
                (loadPersisted_getItem_throws now st Hthrows)) as [st1 ->].
    destruct (bind_of_load_none opts now empty_store empty_store eq_refl)
      as [st2 ->].
    do 2 eexists. split; [reflexivity |]. split; [reflexivity |].
    repeat split. }
  split.
  { intros now st1 st2 Hentry Hget.
    pose proof (loadPersisted_value_only_reads now st1 st2 Hentry Hget)
      as Hval.
    unfold bindWikipediaAutosuggest.
    destruct (loadPersisted now st1) as [r1 s1],
             (loadPersisted now st2) as [r2 s2].
    cbn [fst] in Hval. subst r2.
    destruct r1 as [[parsed |] | e]; [| | reflexivity].
    - destruct (restored_items parsed) as [xs | before |];
        [| reflexivity | exact I].
      destruct (subscribe_initial_frame opts now s1
                  (initialState (Some (restored_term parsed, xs))))
        as [st1' ->].
      destruct (subscribe_initial_frame opts now s2
                  (initialState (Some (restored_term parsed, xs))))
        as [st2' ->].
      repeat split.
    - destruct (subscribe_initial_frame opts now s1 (initialState None))
        as [st1' ->].
      destruct (subscribe_initial_frame opts now s2 (initialState None))
        as [st2' ->].
      repeat split. }
  split.
  { intros w Hw. now destruct (reachable_invariant opts w Hw). }
  exact (run_same_memory opts).
Qed.

(** C10, as the code has it. [loadPersisted] checks only that [term] is
    a string and [items] an array. For every such record on a store whose
    read works: if [savedAt] is absent, or is a value whose conversion to
    a number is [NaN], the expiry comparison is false, so the record is
    returned at every time [now] and the store is left as it is; if
    [savedAt] converts to a number, the record is compared as that
    number, returned when [now] minus it is at most 30 minutes and
    otherwise dropped (and removed when the store's remove works). An
    absent [savedAt] converts to [NaN], [null] to 0, [true] to 1, [false]
    to 0, a number to itself, and a string to what the conversion of
    strings gives. *)
Theorem savedAt_is_compared_as_the_number_it_converts_to :
  forall (now : Z) (st : Storage) (parsed : json),
    getItem_throws st = false ->
    entry st = Some (TextJson parsed) ->
    is_string (prop parsed "term") = true ->
    isArray (prop parsed "items") = true ->
    (prop parsed "savedAt" = None
     \/ ToNumber (prop parsed "savedAt") = Returned NaN ->
     loadPersisted now st = (Returned (Some parsed), st))
    /\ (forall z,
          ToNumber (prop parsed "savedAt") = Returned (Num z) ->
          loadPersisted now st
          = if PERSIST_TTL_MS <? now - z
            then (Returned None,
                  if removeItem_throws st then st else with_entry st None)
            else (Returned (Some parsed), st))
    /\ ToNumber None = Returned NaN
    /\ ToNumber (Some JNull) = Returned (Num 0)
    /\ ToNumber (Some (JBool true)) = Returned (Num 1)
    /\ ToNumber (Some (JBool false)) = Returned (Num 0)
    /\ (forall n, ToNumber (Some (JNum n)) = Returned (Num n))
    /\ (forall s, ToNumber (Some (JStr s)) = Returned (StringToNumber s)).
Proof.
  intros now st parsed Hget Hentry Hterm Hitems.
  split; [| split; [| repeat split]].
  - intros Hsaved.
    assert (HNaN : ToNumber (prop parsed "savedAt") = Returned NaN).
    { destruct Hsaved as [-> | H]; [reflexivity | exact H]. }
    rewrite (loadPersisted_checked now st parsed NaN Hget Hentry
               (is_string_truthy _ _ Hterm) Hterm Hitems HNaN).
    reflexivity.
  - intros z Hsaved.
    rewrite (loadPersisted_checked now st parsed (Num z) Hget Hentry
               (is_string_truthy _ _ Hterm) Hterm Hitems Hsaved).
    reflexivity.
Qed.

(** ** Rendering *)

Lemma clear_empties (children : list Li) : clear children = [].
Proof. induction children as [| c rest IH]; [reflexivity | exact IH]. Qed.

Lemma append_items_app (rest : list Suggestion) (a : Z) :
  forall (i : nat) (children : list Li),
    append_items i rest a children
    = (children ++ append_items i rest a [])%list.
Proof.
  induction rest as [| s rest IH]; intros i children; cbn [append_items].
  - now rewrite app_nil_r.
  - rewrite (IH (S i) (children ++ _)%list), (IH (S i) ([] ++ _)%list).
    now rewrite <- app_assoc.
Qed.

Lemma nth_error_append_items (a : Z) (rest : list Suggestion) :
  forall (i j : nat),
    nth_error (append_items i rest a []) j
    = option_map (fun s => make_li (i + j) s a) (nth_error rest j).
Proof.
  induction rest as [| s rest IH]; intros i j; cbn [append_items].
  - now destruct j.
  - rewrite append_items_app. destruct j as [| j]; cbn.
    + now rewrite Nat.add_0_r.
    + rewrite IH. now rewrite Nat.add_succ_r.
Qed.

Lemma length_append_items (a : Z) (rest : list Suggestion) :
  forall i : nat,
    List.length (append_items i rest a []) = List.length rest.
Proof.
  induction rest as [| s rest IH]; intros i; cbn [append_items].
  - reflexivity.
  - rewrite append_items_app. cbn. now rewrite IH.
Qed.

Lemma list_children_renderSuggestions (items : list Suggestion) (a : Z)
    (d : Dom) :
  list_children (renderSuggestions items a d) = append_items 0 items a [].
Proof.
  unfold renderSuggestions. cbn [list_children].
  now rewrite clear_empties.
Qed.

Lemma append_inj_prefix (p x y : string) :
  (p ++ x)%string = (p ++ y)%string -> x = y.
Proof.
  induction p as [| c p IH]; cbn; intros H; [exact H |].
  injection H as H. now apply IH.
Qed.

Lemma index_text_inj (i j : nat) : index_text i = index_text j -> i = j.
Proof.
  unfold index_text. intros H.
  assert (Hu : Nat.to_uint i = Nat.to_uint j).
  { apply (f_equal NilEmpty.uint_of_string) in H.
    rewrite !NilEmpty.usu in H. now injection H. }
  apply (f_equal Nat.of_uint) in Hu.
  now rewrite !DecimalNat.Unsigned.of_to in Hu.
Qed.

Lemma Boolean_text_true (b : bool) : Boolean_text b = "true" <-> b = true.
Proof. destruct b; cbn; split; intros H; congruence. Qed.

(** X1. Whatever the list held before, [renderSuggestions] leaves in it
    exactly one [li] per item, in the order of the items: the [li] at
    position [j] has id [suggestion-j], its anchor shows the title of item
    [j], links to its url (to "#" when it has none) and opens in a new
    window, and it is marked selected exactly when [j] is the cursor. The
    input's text and focus and the status label are not touched. *)
Theorem renderSuggestions_one_li_per_item :
  forall (items : list Suggestion) (activeIndex : Z) (d : Dom),
    let d' := renderSuggestions items activeIndex d in
    List.length (list_children d') = List.length items
    /\ (forall (j : nat) (s : Suggestion),
          nth_error items j = Some s ->
          exists li,
            nth_error (list_children d') j = Some li
            /\ li_id li = "suggestion-" ++ index_text j
            /\ textContent (anchor li) = title s
            /\ href (anchor li)
               = match url s with Some u => u | None => "#" end
            /\ target (anchor li) = "_blank"
            /\ (aria_selected li = "true" <-> Z.of_nat j = activeIndex))
    /\ input_value d' = input_value d
    /\ input_focused d' = input_focused d
    /\ status_text d' = status_text d.
Proof.
  intros items a d d'. subst d'.
  rewrite list_children_renderSuggestions.
  split; [apply length_append_items |].
  split; [| repeat split].
  intros j s Hs. exists (make_li j s a).
  rewrite nth_error_append_items, Hs. cbn [option_map Nat.add].
  split; [reflexivity |]. split; [reflexivity |]. split; [reflexivity |].
  split; [cbn; unfold nullish; now destruct (url s) |].
  split; [reflexivity |].
  cbn [make_li aria_selected]. rewrite Boolean_text_true. apply Z.eqb_eq.
Qed.

(** X2. After [renderSuggestions], [aria-expanded] says whether there are
    items. If the cursor is the index of an item, [aria-activedescendant]
    is the id of the [li] at that index, which is the only [li] with that
    id and the only one marked selected. Otherwise
    [aria-activedescendant] is empty and no [li] is marked selected. *)
Theorem renderSuggestions_aria_is_consistent :
  forall (items : list Suggestion) (activeIndex : Z) (d : Dom),
    let d' := renderSuggestions items activeIndex d in
    (aria_expanded d' = Some "true" <-> items <> [])
    /\ (0 <= activeIndex < len items ->
        exists li,
          nth_error (list_children d') (Z.to_nat activeIndex) = Some li
          /\ aria_activedescendant d' = Some (li_id li)
          /\ forall j li',
               nth_error (list_children d') j = Some li' ->
               (li_id li' = li_id li <-> j = Z.to_nat activeIndex)
               /\ (aria_selected li' = "true" <-> j = Z.to_nat activeIndex))
    /\ (~ 0 <= activeIndex < len items ->
        aria_activedescendant d' = Some ""
        /\ Forall (fun li => aria_selected li = "false") (list_children d')).
Proof.
  intros items a d d'. subst d'.
  rewrite list_children_renderSuggestions.
  split; [| split].
  - unfold renderSuggestions. cbn [aria_expanded].
    destruct items as [| s rest]; cbn; split; intros H; congruence.
  - intros Ha. unfold len in Ha.
    destruct (nth_error items (Z.to_nat a)) as [s |] eqn:Hs;
      [| apply nth_error_None in Hs; lia].
    exists (make_li (Z.to_nat a) s a).
    split; [now rewrite nth_error_append_items, Hs |].
    split.
    { unfold renderSuggestions. cbn [aria_activedescendant]. unfold len.
      replace ((0 <=? a) && (a <? Z.of_nat (List.length items))) with true
        by (symmetry; apply andb_true_iff; split;
            [apply Z.leb_le | apply Z.ltb_lt]; lia).
      reflexivity. }
    intros j li' Hj. rewrite nth_error_append_items in Hj.
    destruct (nth_error items j) as [s' |]; [| discriminate].
    injection Hj as <-. cbn [make_li li_id aria_selected Nat.add]. split.
    + split; [| now intros ->].
      intros H. apply append_inj_prefix in H. now apply index_text_inj.
    + rewrite Boolean_text_true, Z.eqb_eq. lia.
  - intros Ha. split.
    { unfold renderSuggestions. cbn [aria_activedescendant].
      replace ((0 <=? a) && (a <? len items)) with false; [reflexivity |].
      symmetry. apply andb_false_iff.
      rewrite Z.leb_gt, Z.ltb_ge. lia. }
    apply Forall_forall. intros li Hin.
    apply In_nth_error in Hin. destruct Hin as [j Hj].
    rewrite nth_error_append_items in Hj.
    destruct (nth_error items j) as [s |] eqn:Hs; [| discriminate].
    injection Hj as <-. cbn [make_li aria_selected Nat.add].
    assert (Hlt : (j < List.length items)%nat)
      by (apply nth_error_Some; congruence).
    unfold len in Ha.
    replace (Z.of_nat j =? a) with false; [reflexivity |].
    symmetry. apply Z.eqb_neq. lia.
Qed.

(** ** The page follows the widget *)

Lemma same_memory_refl (w : Widget) : same_memory w w.
Proof. repeat split. Qed.

Lemma same_memory_trans (w1 w2 w3 : Widget) :
  same_memory w1 w2 -> same_memory w2 w3 -> same_memory w1 w3.
Proof.
  unfold same_memory.
  intros (A1 & A2 & A3 & A4 & A5 & A6 & A7) (B1 & B2 & B3 & B4 & B5 & B6 & B7).
  repeat split; congruence.
Qed.

Lemma same_memory_set_storage (st : Storage) (w : Widget) :
  same_memory (set_storage st w) w.
Proof. repeat split. Qed.

Lemma widget_page_deliver (opts : Options) (now : Z)
    (ns : list (Notification SuggestState)) :
  forall p,
    widget (page_deliver opts now ns p) = deliver opts now ns (widget p).
Proof.
  induction ns as [| [s | e |] ns IH]; intros p; cbn [page_deliver deliver];
    try reflexivity.
  now rewrite IH.
Qed.

Lemma widget_page_step (opts : Options) (now : Z) (ev : Event) (p : Page) :
  widget (page_step opts now (OfWidget ev) p) = step opts now ev (widget p).
Proof.
  destruct ev as [t | id r | k]; cbn [page_step step].
  - destruct (uncaught (widget p)); [reflexivity |].
    unfold page_settle, settle.
    destruct (project opts t) as [s | t' lim]; cbn [widget];
      now rewrite widget_page_deliver.
  - destruct (uncaught (widget p)); [reflexivity |].
    unfold page_response, response.
    destruct (inner (widget p)) as [[id' t] |]; [| reflexivity].
    destruct (Nat.eqb id id'); [| reflexivity].
    apply widget_page_deliver.
  - unfold page_keydown, keydown.
    destruct k; try reflexivity.
    destruct ((0 <=? activeIndex (widget p))
              && (activeIndex (widget p)
                  <? len (items (lastState (widget p)))));
      [| reflexivity].
    now destruct (nth_error _ _).
Qed.

Lemma widget_page_click (now : Z) (a : option Anchor) (p : Page) :
  same_memory (widget (page_click now a p)) (widget p).
Proof.
  destruct a as [a |]; cbn [page_click widget]; [| apply same_memory_refl].
  destruct (negb (String.eqb (textContent a) "")
            && (0 <? len (items (lastState (widget p)))));
    [| apply same_memory_refl].
  rewrite run_store_savePersisted. apply same_memory_set_storage.
Qed.

Lemma page_run_same_memory (opts : Options) (evs : list (Z * PageEvent)) :
  forall (p : Page) (w : Widget),
    same_memory (widget p) w ->
    same_memory (widget (page_run opts evs p))
      (run opts (widget_events evs) w).
Proof.
  induction evs as [| [now [ev | a]] evs IH]; intros p w H;
    cbn [page_run widget_events run].
  - exact H.
  - apply IH. rewrite widget_page_step. now apply step_same_memory.
  - apply IH. cbn [page_step].
    exact (same_memory_trans _ _ _ (widget_page_click now a p) H).
Qed.

(** Binding a page ends as binding its widget does. *)
Lemma page_bind_outcome (opts : Options) (now : Z) (st : Storage) (d : Dom) :
  match page_bind opts now st d, bindWikipediaAutosuggest opts now st with
  | Some (PageStarted p), Some (Returned w) => widget p = w
  | Some (PageThrew e _ _), Some (Threw e') => e = e'
  | None, None => True
  | _, _ => False
  end.
Proof.
  unfold page_bind, bindWikipediaAutosuggest.
  destruct (loadPersisted now st) as [[[parsed |] | e] st'];
    try reflexivity.
  destruct (restored_items parsed) as [xs | before |];
    first [reflexivity | exact I].
Qed.

Lemma page_bind_widget (opts : Options) (now : Z) (st : Storage) (d : Dom)
    (p : Page) :
  page_bind opts now st d = Some (PageStarted p) ->
  bindWikipediaAutosuggest opts now st = Some (Returned (widget p)).
Proof.
  intros Hp. pose proof (page_bind_outcome opts now st d) as H.
  rewrite Hp in H.
  destruct (bindWikipediaAutosuggest opts now st) as [[w | e] |];
    try contradiction.
  now subst w.
Qed.

Lemma page_reachable_widget (opts : Options) (p : Page) :
  PageReachable opts p ->
  exists w, Reachable opts w /\ same_memory (widget p) w.
Proof.
  induction 1 as [now st d p Hbind | now pe p _ (w & Hw & Hsame)].
  - exists (widget p). split; [| apply same_memory_refl].
    exact (Reachable_bind opts now st _ (page_bind_widget _ _ _ _ _ Hbind)).
  - destruct pe as [ev | a].
    + exists (step opts now ev w). split; [now apply Reachable_step |].
      rewrite widget_page_step. now apply step_same_memory.
    + exists w. split; [exact Hw |].
      exact (same_memory_trans _ _ _ (widget_page_click now a p) Hsame).
Qed.

(** ** The elements show the current state *)

Lemma render_current_eq (w : Widget) (d : Dom) :
  render_current w d
  = mkDom (input_value d) (input_focused d)
      (Some (Boolean_text (0 <? len (items (lastState w)))))
      (Some (if (0 <=? activeIndex w)
                && (activeIndex w <? len (items (lastState w)))
             then "suggestion-" ++ index_text (Z.to_nat (activeIndex w))
             else ""))
      (status_text (renderStatus (lastState w) d))
      (append_items 0 (items (lastState w)) (activeIndex w) []).
Proof.
  unfold render_current, renderSuggestions.
  cbn [list_children renderStatus input_value input_focused status_text].
  now rewrite clear_empties.
Qed.

Lemma render_current_idem (w : Widget) (d : Dom) :
  render_current w (render_current w d) = render_current w d.
Proof. now rewrite !render_current_eq. Qed.

Lemma shown_intro (w : Widget) (d d0 : Dom) (o : list string)
    (s : SuggestState) (a : Z) :
  lastState w = s ->
  activeIndex w = a ->
  d = renderSuggestions (items s) a (renderStatus s d0) ->
  shown (mkPage w d o).
Proof. intros <- <- ->. exists d0. reflexivity. Qed.

(** A change of the widget that keeps its state and cursor, with a change
    of the input's text or focus only, keeps the elements up to date. *)
Lemma shown_frame (p : Page) (w : Widget) (d : Dom) (o : list string) :
  shown p ->
  lastState w = lastState (widget p) ->
  activeIndex w = activeIndex (widget p) ->
  aria_expanded d = aria_expanded (dom p) ->
  aria_activedescendant d = aria_activedescendant (dom p) ->
  status_text d = status_text (dom p) ->
  list_children d = list_children (dom p) ->
  shown (mkPage w d o).
Proof.
  intros [d0 Hd] Hs Ha H1 H2 H3 H4.
  exists (mkDom (input_value d) (input_focused d) None None "" []).
  cbn [dom widget]. rewrite Hd in H1, H2, H3, H4.
  rewrite render_current_eq in *. cbn in H1, H2, H3, H4 |- *.
  rewrite Hs, Ha. destruct d. cbn in *. congruence.
Qed.

Lemma shown_page_subscriber (opts : Options) (now : Z) (s : SuggestState)
    (p : Page) :
  shown (page_subscriber opts now s p).
Proof.
  unfold page_subscriber.
  destruct (subscriber_frame opts now s (widget p)) as [st' ->].
  now apply (shown_intro _ _ (dom p) _ s (-1)).
Qed.

Lemma shown_page_deliver (opts : Options) (now : Z)
    (ns : list (Notification SuggestState)) :
  forall p, shown p -> shown (page_deliver opts now ns p).
Proof.
  induction ns as [| [s | e |] ns IH]; intros p Hp; cbn [page_deliver].
  - exact Hp.
  - apply IH, shown_page_subscriber.
  - now apply (shown_frame p).
  - now apply (shown_frame p).
Qed.

Lemma shown_page_applyActiveIndex (index : Z) (p : Page) :
  shown p -> shown (page_applyActiveIndex index p).
Proof.
  intros [d0 Hd]. unfold page_applyActiveIndex.
  apply (shown_intro _ _ d0 _ (lastState (widget p)) index);
    try reflexivity.
  rewrite Hd, render_current_eq. unfold renderSuggestions.
  cbn. now rewrite !clear_empties.
Qed.

Lemma shown_page_step (opts : Options) (now : Z) (pe : PageEvent)
    (p : Page) :
  shown p -> shown (page_step opts now pe p).
Proof.
  intros Hp. destruct pe as [[t | id r | k] | a]; cbn [page_step].
  - destruct (uncaught (widget p)); [exact Hp |].
    unfold page_settle.
    assert (H0 : shown (mkPage (set_inner None (widget p)) (dom p) (opened p)))
      by now apply (shown_frame p).
    destruct (project opts t) as [s | t' lim].
    + now apply shown_page_deliver.
    + match goal with |- context [page_deliver opts now ?ns ?p0] =>
        apply (shown_frame (page_deliver opts now ns p0));
          try reflexivity; now apply shown_page_deliver end.
  - destruct (uncaught (widget p)); [exact Hp |].
    unfold page_response.
    destruct (inner (widget p)) as [[id' t'] |]; [| exact Hp].
    destruct (Nat.eqb id id'); [| exact Hp].
    now apply shown_page_deliver.
  - unfold page_keydown. destruct k;
      try (now apply shown_page_applyActiveIndex).
    + destruct ((0 <=? activeIndex (widget p))
                && (activeIndex (widget p)
                    <? len (items (lastState (widget p)))));
        [| exact Hp].
      destruct (nth_error _ _); [| exact Hp].
      rewrite run_store_savePersisted. now apply (shown_frame p).
    + apply (shown_frame (page_applyActiveIndex (-1) p));
        try reflexivity. now apply shown_page_applyActiveIndex.
  - destruct a as [a |]; cbn [page_click]; [| exact Hp].
    apply (shown_frame p); try assumption;
      try (destruct (String.eqb (textContent a) ""); reflexivity).
    + destruct (negb _ && _); [| reflexivity].
      now rewrite run_store_savePersisted.
    + destruct (negb _ && _); [| reflexivity].
      now rewrite run_store_savePersisted.
Qed.

Lemma page_reachable_shown (opts : Options) (p : Page) :
  PageReachable opts p -> shown p.
Proof.
  induction 1 as [now st d p Hbind | now pe p _ IH].
  - unfold page_bind in Hbind.
    destruct (loadPersisted now st) as [[[parsed |] | e] st'];
      [| | discriminate].
    + destruct (restored_items parsed) as [xs | before |];
        try discriminate.
      injection Hbind as <-. apply shown_page_subscriber.
    + injection Hbind as <-. apply shown_page_subscriber.
  - now apply shown_page_step.
Qed.

(** ** Requests and the pending search *)

Lemma reachable_requests (opts : Options) (w : Widget) :
  Reachable opts w ->
  (forall id t, inner w = Some (id, t) ->
     lastState w = Loading t []
     /\ next_id w = S id
     /\ nth_error (requests w) id = Some (mkRequest id t (limit opts)))
  /\ (inner w = None -> kind (lastState w) <> loading)
  /\ List.length (requests w) = next_id w
  /\ forall i rq, nth_error (requests w) i = Some rq ->
       req_id rq = i
       /\ req_limit rq = limit opts
       /\ minLength opts <= strlen (req_term rq).
Proof.
  induction 1 as [now st w Hbind | now ev w Hw (Hin & Hnone & Hlen & Hrq)].
  - destruct (bind_frame opts now st w Hbind) as (restored & st' & ->).
    cbn. split; [discriminate |].
    split; [destruct restored as [[t xs] |]; discriminate |].
    split; [reflexivity |]. intros [| i] rq; discriminate.
  - destruct (reachable_invariant opts w Hw) as (Hu & _ & _).
    destruct ev as [t | id r | k]; cbn [step]; try rewrite Hu.
    + destruct (Z.lt_ge_cases (strlen t) (minLength opts)) as [Hlt | Hge].
      * destruct (settle_short opts now t w Hlt) as [st' ->]. cbn.
        split; [discriminate |]. split; [discriminate |]. auto.
      * destruct (settle_long opts now t w Hge) as [st' ->]. cbn.
        split; [| split; [discriminate | split]].
        -- intros id t' [= <- <-]. split; [reflexivity |].
           split; [reflexivity |].
           rewrite <- Hlen, nth_error_app2, Nat.sub_diag by lia.
           reflexivity.
        -- rewrite length_app. cbn. lia.
        -- intros i rq Hi.
           destruct (Nat.lt_ge_cases i (List.length (requests w)))
             as [Hlt | Hle].
           ++ rewrite nth_error_app1 in Hi by exact Hlt. now apply Hrq.
           ++ rewrite nth_error_app2 in Hi by exact Hle.
              destruct (i - List.length (requests w))%nat as [| k] eqn:Hk;
                [| destruct k; discriminate].
              injection Hi as <-. cbn. repeat split; [lia | exact Hge].
    + destruct (inner w) as [[id' t] |] eqn:Hinner.
      * destruct (Nat.eq_dec id id') as [-> | Hne].
        -- destruct (response_current opts now id' t r w Hinner)
             as [st' ->]. cbn.
           split; [discriminate |].
           split; [destruct r; discriminate |]. auto.
        -- rewrite response_stale
             by (intros t' E; rewrite Hinner in E; congruence).
           rewrite Hinner. auto.
      * rewrite response_stale by (rewrite Hinner; discriminate).
        rewrite Hinner. auto.
    + destruct (keydown_frame now k w) as (index & st' & ->). cbn. auto.
Qed.

(** X3. On every widget a bound widget can become, a search is awaited
    exactly when the current state is [loading]; the awaited request is
    then the last one made, and it was made for the current state's term
    with the configured limit. Requests are numbered in the order they
    are made, each with the configured limit and for a term of at least
    [minLength] characters. *)
Theorem pending_search_is_the_loading_one :
  forall (opts : Options) (w : Widget),
    Reachable opts w ->
    (kind (lastState w) = loading <-> exists id t, inner w = Some (id, t))
    /\ (forall id t, inner w = Some (id, t) ->
          lastState w = Loading t []
          /\ S id = List.length (requests w)
          /\ nth_error (requests w) id
             = Some (mkRequest id t (limit opts)))
    /\ (forall i rq, nth_error (requests w) i = Some rq ->
          req_id rq = i
          /\ req_limit rq = limit opts
          /\ minLength opts <= strlen (req_term rq)).
Proof.
  intros opts w Hw.
  destruct (reachable_requests opts w Hw) as (Hin & Hnone & Hlen & Hrq).
  split; [| split; [| exact Hrq]].
  - split.
    + intros Hk. destruct (inner w) as [[id t] |]; [eauto |].
      now contradiction (Hnone eq_refl).
    + intros (id & t & Hi). destruct (Hin id t Hi) as (-> & _). reflexivity.
  - intros id t Hi. destruct (Hin id t Hi) as (H1 & H2 & H3).
    split; [exact H1 |]. split; [congruence | exact H3].
Qed.

(** ** The cursor under repeated keys *)

Lemma run_presses_frame (opts : Options) (k : Key) (n : nat) :
  forall w, lastState (run opts (presses n k) w) = lastState w.
Proof.
  induction n as [| n IH]; intros w; cbn [presses repeat run]; [reflexivity |].
  fold (presses n k). rewrite IH. cbn [step].
  destruct (keydown_frame 0 k w) as (index & st' & ->). reflexivity.
Qed.

(** X4. The arrow keys saturate and never wrap: from a cursor [c] in
    range, [n] presses of ArrowDown leave the cursor at
    [min(c + n, items.length - 1)] and [n] presses of ArrowUp at
    [max(c - n, -1)]; neither changes the current state. *)
Theorem arrow_keys_saturate :
  forall (opts : Options) (w : Widget) (n : nat),
    cursor_in_range w ->
    let last := len (items (lastState w)) - 1 in
    activeIndex (run opts (presses n ArrowDown) w)
    = Z.min (activeIndex w + Z.of_nat n) last
    /\ activeIndex (run opts (presses n ArrowUp) w)
       = Z.max (activeIndex w - Z.of_nat n) (-1)
    /\ lastState (run opts (presses n ArrowDown) w) = lastState w
    /\ lastState (run opts (presses n ArrowUp) w) = lastState w.
Proof.
  intros opts w n Hc last. subst last.
  split; [| split; [| split; apply run_presses_frame]].
  - revert w Hc.
    induction n as [| n IH]; intros w Hc; unfold cursor_in_range in Hc;
      cbn [presses repeat run]; [lia |].
    fold (presses n ArrowDown). rewrite IH.
    + cbn [step keydown applyActiveIndex set_activeIndex lastState
             activeIndex]. lia.
    + unfold cursor_in_range.
      cbn [step keydown applyActiveIndex set_activeIndex lastState
             activeIndex]. lia.
  - revert w Hc.
    induction n as [| n IH]; intros w Hc; unfold cursor_in_range in Hc;
      cbn [presses repeat run]; [lia |].
    fold (presses n ArrowUp). rewrite IH.
    + cbn [step keydown applyActiveIndex set_activeIndex lastState
             activeIndex]. lia.
    + unfold cursor_in_range.
      cbn [step keydown applyActiveIndex set_activeIndex lastState
             activeIndex]. lia.
Qed.

(** ** What reaches the store *)

Lemma subscriber_storage (opts : Options) (now : Z) (s : SuggestState)
    (w : Widget) :
  storage (subscriber opts now s w)
  = let st1 :=
      if Kind_eqb (kind s) done && (0 <? len (items s))
      then if setItem_throws (storage w) then storage w
           else with_entry (storage w)
                  (Some (JSON_stringify (mkPersisted (term s) (items s) now)))
      else storage w in
    if Kind_eqb (kind s) idle && (strlen (term s) <? minLength opts)
    then if removeItem_throws st1 then st1 else with_entry st1 None
    else st1.
Proof.
  unfold subscriber. rewrite run_store_savePersisted.
  destruct (Kind_eqb (kind s) done && (0 <? len (items s)));
    destruct (Kind_eqb (kind s) idle && (strlen (term s) <? minLength opts));
    try rewrite run_store_clearPersisted; reflexivity.
Qed.

(** A snapshot written to a store that works is what a later binding
    within the retention window starts from. *)
Lemma bind_after_save (opts : Options) (now' : Z) (v : PersistedSuggestions)
    (st : Storage) :
  getItem_throws st = false ->
  now' - savedAt v <= PERSIST_TTL_MS ->
  exists w,
    bindWikipediaAutosuggest opts now'
      (with_entry st (Some (JSON_stringify v)))
    = Some (Returned w)
    /\ lastState w = Done (p_term v) (p_items v).
Proof.
  intros Hget Hage.
  set (st1 := with_entry st (Some (JSON_stringify v))).
  assert (Hload : loadPersisted now' st1
                  = (Returned (Some (PersistedSuggestions_to_json v)), st1)).
  { rewrite (loadPersisted_checked now' st1 (PersistedSuggestions_to_json v)
               (Num (savedAt v))); try reflexivity; try exact Hget.
    cbn [number_sub number_gtb].
    apply Z.ltb_ge in Hage. now rewrite Hage. }
  destruct (bind_of_load_typed opts _ _ _ _ _ Hload
              (restored_items_to_json v)) as [st' ->].
  eexists. split; reflexivity.
Qed.

(** X5. When a term shorter than [minLength] settles and the store's
    remove works, no snapshot is left in the store, whatever it held; a
    widget bound on that store afterwards starts from [idle("", [])]. *)
Theorem short_term_drops_the_snapshot :
  forall (opts opts' : Options) (w : Widget) (now now' : Z) (t : string),
    Reachable opts w ->
    removeItem_throws (storage w) = false ->
    strlen t < minLength opts ->
    let w' := step opts now (Settle t) w in
    entry (storage w') = None
    /\ exists w2,
         bindWikipediaAutosuggest opts' now' (storage w') = Some (Returned w2)
         /\ lastState w2 = Idle "" [].
Proof.
  intros opts opts' w now now' t Hw Hrem Hlen w'.
  destruct (reachable_invariant opts w Hw) as (Hu & _ & _).
  assert (Hentry : entry (storage w') = None).
  { subst w'. cbn [step]. rewrite Hu. unfold settle, project.
    apply Z.ltb_lt in Hlen. rewrite Hlen.
    cbn [deliver rx_of set_inner storage].
    rewrite subscriber_storage.
    cbn [kind term items Idle Kind_eqb andb set_inner storage].
    rewrite Hlen, Hrem. reflexivity. }
  split; [exact Hentry |].
  destruct (bind_of_load_none opts' now' _ _
              (loadPersisted_no_entry now' _ Hentry)) as [st' ->].
  eexists. split; reflexivity.
Qed.

(** X6. A search that fails, or that returns no suggestion, never
    touches the store: after the term settled and its request ended, the
    store is exactly what it was, so the snapshot of an earlier term
    stays. *)
Theorem fruitless_search_keeps_the_store :
  forall (opts : Options) (w : Widget) (now1 now2 : Z) (t : string)
         (r : AjaxOutcome),
    Reachable opts w ->
    minLength opts <= strlen t ->
    match r with
    | Loaded data => toSuggestions data = []
    | Failed _ => True
    end ->
    let w' := run opts
                [(now1, Settle t); (now2, Response (next_id w) r)] w in
    storage w' = storage w
    /\ lastState w'
       = match r with
         | Loaded _ => Done t []
         | Failed e => Errored t [] (error_text e)
         end.
Proof.
  intros opts w now1 now2 t r Hw Hlen Hr w'. subst w'.
  destruct (reachable_invariant opts w Hw) as (Hu & _ & _).
  cbn [run step]. rewrite Hu. unfold settle, project.
  pose proof Hlen as Hlen'. apply Z.ltb_ge in Hlen'. rewrite Hlen'.
  cbn [deliver].
  destruct (subscriber_frame opts now1 (Loading t []) (set_inner None w))
    as [st1 E1].
  assert (Hst1 : st1 = storage w).
  { apply (f_equal storage) in E1. rewrite subscriber_storage in E1.
    symmetry. exact E1. }
  rewrite E1. subst st1. unfold send_request.
  cbn [set_inner uncaught inner next_id lastState activeIndex
         storage emitted requests].
  rewrite Hu. unfold response.
  cbn [inner]. rewrite Nat.eqb_refl, inner_on_response_eq.
  cbn [deliver set_inner].
  match goal with |- context [subscriber opts now2 ?s ?w0] =>
    destruct (subscriber_frame opts now2 s w0) as [st2 E2];
    assert (Hst2 : storage (subscriber opts now2 s w0) = storage w)
  end.
  { rewrite subscriber_storage. cbn [storage].
    destruct r as [data | e]; [rewrite Hr |]; reflexivity. }
  rewrite E2 in Hst2 |- *. cbn [storage lastState] in Hst2 |- *.
  split; [exact Hst2 |].
  destruct r as [data | e]; [rewrite Hr |]; reflexivity.
Qed.

(** X7. Restoring renews the snapshot: when a widget is bound on a store
    that works and holds a snapshot with at least one item, not older
    than 30 minutes, it starts from [done(term, items)] and the store
    then holds the same term and items with [savedAt] set to the time of
    binding. *)
Theorem restoring_renews_the_snapshot :
  forall (opts : Options) (now : Z) (st : Storage)
         (v : PersistedSuggestions),
    getItem_throws st = false ->
    setItem_throws st = false ->
    entry st = Some (JSON_stringify v) ->
    p_items v <> [] ->
    now - savedAt v <= PERSIST_TTL_MS ->
    exists w,
      bindWikipediaAutosuggest opts now st = Some (Returned w)
      /\ lastState w = Done (p_term v) (p_items v)
      /\ entry (storage w)
         = Some (JSON_stringify (mkPersisted (p_term v) (p_items v) now)).
Proof.
  intros opts now st v Hget Hset Hentry Hitems Hage.
  assert (Hload : loadPersisted now st
                  = (Returned (Some (PersistedSuggestions_to_json v)), st)).
  { rewrite (loadPersisted_checked now st (PersistedSuggestions_to_json v)
               (Num (savedAt v))); try reflexivity; try assumption.
    cbn [number_sub number_gtb].
    apply Z.ltb_ge in Hage. now rewrite Hage. }
  unfold bindWikipediaAutosuggest. rewrite Hload.
  rewrite restored_items_to_json, restored_term_to_json.
  cbn [initialState]. unfold subscribe_initial.
  eexists. split; [reflexivity |].
  split.
  - match goal with |- context [subscriber opts now ?s ?w0] =>
      destruct (subscriber_frame opts now s w0) as [st' ->] end.
    reflexivity.
  - rewrite subscriber_storage.
    cbn [kind term items Done Kind_eqb andb storage].
    replace (0 <? len (p_items v)) with true
      by (destruct (p_items v); [contradiction | reflexivity]).
    rewrite Hset. reflexivity.
Qed.

(** X8. [loadPersisted] always returns. When it returns a record, that
    record is the stored one, its [term] is a string and its [items] an
    array, and the store is as it was. When it returns nothing, the store
    is as it was (an empty, unreadable or malformed entry is left in
    place), unless the entry was a well-formed record, which has then
    been removed. *)
Theorem loadPersisted_removes_only_expired_records :
  forall (now : Z) (st : Storage),
    exists restored st',
      loadPersisted now st = (Returned restored, st')
      /\ match restored with
         | Some parsed =>
             st' = st
             /\ entry st = Some (TextJson parsed)
             /\ is_string (prop parsed "term") = true
             /\ isArray (prop parsed "items") = true
         | None =>
             st' = st
             \/ (st' = with_entry st None
                 /\ exists parsed,
                      entry st = Some (TextJson parsed)
                      /\ is_string (prop parsed "term") = true
                      /\ isArray (prop parsed "items") = true)
         end.
Proof.
  intros now st.
  assert (Hkept : exists restored st',
             (Returned None, st) = (Returned restored, st')
             /\ match restored with
                | Some parsed =>
                    st' = st
                    /\ entry st = Some (TextJson parsed)
                    /\ is_string (prop parsed "term") = true
                    /\ isArray (prop parsed "items") = true
                | None =>
                    st' = st
                    \/ (st' = with_entry st None
                        /\ exists parsed,
                             entry st = Some (TextJson parsed)
                             /\ is_string (prop parsed "term") = true
                             /\ isArray (prop parsed "items") = true)
                end).
  { exists None, st. split; [reflexivity | now left]. }
  unfold loadPersisted, try_catch, bind, getItem, lift, ret.
  destruct (getItem_throws st); [exact Hkept |].
  destruct (entry st) as [[| | parsed] |] eqn:Hentry; cbn [JSON_parse];
    try exact Hkept.
  destruct (truthy parsed); cbn [negb orb]; [| exact Hkept].
  destruct (is_string (prop parsed "term")) eqn:Hterm; cbn [negb orb];
    [| exact Hkept].
  destruct (isArray (prop parsed "items")) eqn:Hitems; cbn [negb orb];
    [| exact Hkept].
  destruct (ToNumber (prop parsed "savedAt")) as [saved | e];
    [| exact Hkept].
  destruct (number_gtb _ _).
  - unfold removeItem. destruct (removeItem_throws st); [exact Hkept |].
    exists None, (with_entry st None). split; [reflexivity |]. right.
    split; [reflexivity |]. exists parsed. auto.
  - exists (Some parsed), st. auto.
Qed.

(** X9. The draft without a retention window: its [loadPersisted] never
    changes the store, returns a well-formed record whatever its
    [savedAt] and the time, and returns every record that the
    [loadPersisted] with the retention window returns. *)
Theorem earlier_draft_never_expires_a_snapshot :
  forall st : Storage,
    exists restored,
      EarlierDraft.loadPersisted st = (Returned restored, st)
      /\ (forall parsed,
            getItem_throws st = false ->
            entry st = Some (TextJson parsed) ->
            is_string (prop parsed "term") = true ->
            isArray (prop parsed "items") = true ->
            restored = Some parsed)
      /\ (forall now parsed st',
            loadPersisted now st = (Returned (Some parsed), st') ->
            restored = Some parsed).
Proof.
  intros st.
  assert (Htotal : exists restored,
             EarlierDraft.loadPersisted st = (Returned restored, st)).
  { unfold EarlierDraft.loadPersisted, try_catch, bind, getItem, lift, ret.
    destruct (getItem_throws st); [eauto |].
    destruct (entry st) as [[| | parsed] |]; cbn [JSON_parse]; eauto.
    destruct (negb _ || _ || _); eauto. }
  destruct Htotal as [restored Hr]. exists restored.
  split; [exact Hr |].
  assert (Hwf : forall parsed,
            getItem_throws st = false ->
            entry st = Some (TextJson parsed) ->
            is_string (prop parsed "term") = true ->
            isArray (prop parsed "items") = true ->
            restored = Some parsed).
  { intros parsed Hget Hentry Hterm Hitems.
    rewrite (earlier_draft_has_no_expiry st parsed Hget Hentry Hterm Hitems)
      in Hr. now injection Hr. }
  split; [exact Hwf |].
  intros now parsed st' Hload.
  destruct (getItem_throws st) eqn:Hget.
  - rewrite (loadPersisted_getItem_throws now st Hget) in Hload.
    discriminate.
  - revert Hload.
    unfold loadPersisted, try_catch, bind, getItem, lift, ret.
    rewrite Hget.
    destruct (entry st) as [[| | parsed'] |] eqn:Hentry; cbn [JSON_parse];
      try discriminate.
    destruct (truthy parsed'); cbn [negb orb]; [| discriminate].
    destruct (is_string (prop parsed' "term")) eqn:Hterm; cbn [negb orb];
      [| discriminate].
    destruct (isArray (prop parsed' "items")) eqn:Hitems; cbn [negb orb];
      [| discriminate].
    destruct (ToNumber (prop parsed' "savedAt")) as [saved | e];
      [| discriminate].
    destruct (number_gtb _ _).
    + unfold removeItem. destruct (removeItem_throws st); discriminate.
    + intros [= <- _]. now apply Hwf.
Qed.

(** ** What the page shows and what its handlers do *)

Lemma shown_list (p : Page) :
  shown p ->
  list_children (dom p)
  = append_items 0 (items (lastState (widget p))) (activeIndex (widget p)) []
  /\ status_text (dom p)
     = status_text (renderStatus (lastState (widget p)) (dom p)).
Proof.
  intros [d0 Hd]. rewrite Hd at 1 2. rewrite render_current_eq.
  split; reflexivity.
Qed.

(** X10. On every page a bound page can become, the elements show the
    widget's current state and cursor: rendering them again changes
    nothing. In particular the list has one entry per item of the current
    state, the status label reads "Loading…" exactly while a search is
    awaited, and it is empty exactly when the state is [idle] or
    [done]. *)
Theorem page_shows_the_current_state :
  forall (opts : Options) (p : Page),
    PageReachable opts p ->
    render_current (widget p) (dom p) = dom p
    /\ List.length (list_children (dom p))
       = List.length (items (lastState (widget p)))
    /\ (status_text (dom p) = "Loading…"
        <-> exists id t, inner (widget p) = Some (id, t))
    /\ (status_text (dom p) = ""
        <-> kind (lastState (widget p)) = idle
            \/ kind (lastState (widget p)) = done).
Proof.
  intros opts p Hp.
  pose proof (page_reachable_shown opts p Hp) as Hshown.
  destruct (shown_list p Hshown) as (Hlist & Hstatus).
  destruct (page_reachable_widget opts p Hp)
    as (w & Hw & (Hs & _ & Hi & _)).
  destruct (reachable_requests opts w Hw) as (Hin & Hnone & _).
  rewrite <- Hs, <- Hi in *.
  split; [| split; [| split]].
  - destruct Hshown as [d0 Hd]. rewrite Hd at 1 2.
    apply render_current_idem.
  - rewrite Hlist. apply length_append_items.
  - rewrite Hstatus. cbn [renderStatus status_text]. split.
    + intros Hl. destruct (inner (widget p)) as [[id t] |]; [eauto |].
      specialize (Hnone eq_refl).
      destruct (kind (lastState (widget p))); cbn in Hl;
        try discriminate; now contradiction Hnone.
    + intros (id & t & Hit). destruct (Hin id t Hit) as (-> & _).
      reflexivity.
  - rewrite Hstatus. cbn [renderStatus status_text].
    destruct (kind (lastState (widget p))); cbn; split;
      try (intros [H | H]; discriminate); try discriminate; auto.
Qed.

(** X11. Clicks and rendering never reach the state machine: after any
    events on a page, the widget's state, cursor, awaited request and
    request log are those of the widget run on the same events with the
    clicks left out (only the store can differ), and without clicks the
    widget is exactly that one. *)
Theorem page_events_project_to_the_widget :
  forall (opts : Options) (evs : list (Z * PageEvent)) (p : Page),
    same_memory (widget (page_run opts evs p))
      (run opts (widget_events evs) (widget p))
    /\ (Forall (fun e => exists ev, snd e = OfWidget ev) evs ->
        widget (page_run opts evs p)
        = run opts (widget_events evs) (widget p)).
Proof.
  intros opts evs p.
  split; [apply page_run_same_memory, same_memory_refl |].
  revert p. induction evs as [| [now pe] evs IH]; intros p Hall;
    cbn [page_run widget_events run]; [reflexivity |].
  inversion Hall as [| ? ? [ev Hev] Hrest]; subst.
  cbn [snd] in Hev. subst pe.
  rewrite IH by exact Hrest. now rewrite widget_page_step.
Qed.

(** X12. Enter on a selected item puts the item's title into the input,
    opens the item's url in a new window when it has a non-empty one (and
    opens nothing otherwise), and leaves the state, the cursor, the list
    and the status as they are. When the store works it then holds the
    snapshot [{term: title, items: the current items, savedAt: now}], and
    a widget bound within 30 minutes starts from
    [done(title, current items)]. *)
Theorem enter_activates_the_selected_item :
  forall (opts opts' : Options) (p : Page) (now now' : Z)
         (selected : Suggestion),
    0 <= activeIndex (widget p) ->
    nth_error (items (lastState (widget p)))
      (Z.to_nat (activeIndex (widget p))) = Some selected ->
    let current := items (lastState (widget p)) in
    let p' := page_step opts now (OfWidget (Keydown Enter)) p in
    input_value (dom p') = title selected
    /\ (forall u, url selected = Some u -> u <> "" ->
          opened p' = (opened p ++ [u])%list)
    /\ (url selected = None \/ url selected = Some "" ->
          opened p' = opened p)
    /\ same_memory (widget p') (widget p)
    /\ list_children (dom p') = list_children (dom p)
    /\ status_text (dom p') = status_text (dom p)
    /\ (setItem_throws (storage (widget p)) = false ->
        entry (storage (widget p'))
        = Some (JSON_stringify (mkPersisted (title selected) current now))
        /\ (getItem_throws (storage (widget p)) = false ->
            now' - now <= PERSIST_TTL_MS ->
            exists w,
              bindWikipediaAutosuggest opts' now' (storage (widget p'))
              = Some (Returned w)
              /\ lastState w = Done (title selected) current)).
Proof.
  intros opts opts' p now now' selected Ha Hsel current p'.
  subst current. set (current := items (lastState (widget p))) in *.
  assert (Hlt : activeIndex (widget p) < len current).
  { assert (H : (Z.to_nat (activeIndex (widget p))
                 < List.length current)%nat)
      by (apply nth_error_Some; subst current; congruence).
    unfold len. lia. }
  assert (Hp' : p' = {| widget :=
                          run_store
                            (savePersisted
                               (mkPersisted (title selected) current now))
                            (widget p);
                        dom := set_input_value (title selected) (dom p);
                        opened := open_url (url selected) (opened p) |}).
  { subst p'. cbn [page_step]. unfold page_keydown.
    apply Z.leb_le in Ha. apply Z.ltb_lt in Hlt.
    fold current. rewrite Ha, Hlt. cbn [andb]. now rewrite Hsel. }
  rewrite Hp'. cbn [dom widget opened set_input_value input_value
                      list_children status_text].
  rewrite run_store_savePersisted.
  split; [reflexivity |].
  split.
  { intros u Hu Hne. rewrite Hu. cbn [open_url].
    destruct (String.eqb_spec u ""); [contradiction | reflexivity]. }
  split; [intros [-> | ->]; reflexivity |].
  split; [apply same_memory_set_storage |].
  split; [reflexivity |]. split; [reflexivity |].
  intros Hset. rewrite Hset. cbn [set_storage storage].
  split; [reflexivity |].
  intros Hget Hage.
  exact (bind_after_save opts' now'
           (mkPersisted (title selected) current now) _ Hget Hage).
Qed.

(** X13. On a page a bound page can become, a click on the anchor of the
    list entry at position [j], when its text is not empty, puts the
    title of item [j] into the input and leaves the state, the cursor,
    the list, the status and the opened windows as they are. When the
    store works it then holds the snapshot
    [{term: that title, items: the current items, savedAt: now}], and a
    widget bound within 30 minutes starts from [done(title, items)]. A
    click that is not on an anchor, or on an anchor with empty text,
    changes nothing. *)
Theorem click_persists_the_current_items :
  forall (opts opts' : Options) (p : Page) (now now' : Z) (j : nat)
         (li : Li),
    PageReachable opts p ->
    nth_error (list_children (dom p)) j = Some li ->
    textContent (anchor li) <> "" ->
    let current := items (lastState (widget p)) in
    let p' := page_step opts now (Click (Some (anchor li))) p in
    (exists s, nth_error current j = Some s
               /\ textContent (anchor li) = title s
               /\ input_value (dom p') = title s)
    /\ same_memory (widget p') (widget p)
    /\ list_children (dom p') = list_children (dom p)
    /\ status_text (dom p') = status_text (dom p)
    /\ opened p' = opened p
    /\ (setItem_throws (storage (widget p)) = false ->
        entry (storage (widget p'))
        = Some (JSON_stringify
                  (mkPersisted (textContent (anchor li)) current now))
        /\ (getItem_throws (storage (widget p)) = false ->
            now' - now <= PERSIST_TTL_MS ->
            exists w,
              bindWikipediaAutosuggest opts' now' (storage (widget p'))
              = Some (Returned w)
              /\ lastState w = Done (textContent (anchor li)) current))
    /\ page_step opts now (Click None) p = p
    /\ forall a, textContent a = "" ->
         page_step opts now (Click (Some a)) p = p.
Proof.
  intros opts opts' p now now' j li Hp Hli Htext current p'.
  subst current. set (current := items (lastState (widget p))) in *.
  destruct (shown_list p (page_reachable_shown opts p Hp)) as (Hlist & _).
  rewrite Hlist, nth_error_append_items in Hli. fold current in Hli.
  destruct (nth_error current j) as [s |] eqn:Hs; [| discriminate].
  injection Hli as <-. cbn [make_li anchor textContent Nat.add] in *.
  assert (Hne : (0 <? len current) = true).
  { unfold len. destruct current; [destruct j; discriminate | reflexivity]. }
  assert (Hnb : String.eqb (title s) "" = false)
    by (now apply String.eqb_neq).
  subst p'. cbn [page_step page_click textContent].
  fold current. rewrite Hnb, Hne. cbn [negb andb].
  cbn [dom widget opened set_input_value input_value list_children
         status_text].
  rewrite run_store_savePersisted.
  split; [exists s; auto |].
  split; [apply same_memory_set_storage |].
  split; [reflexivity |]. split; [reflexivity |]. split; [reflexivity |].
  split.
  { intros Hset. rewrite Hset. cbn [set_storage storage].
    split; [reflexivity |].
    intros Hget Hage.
    exact (bind_after_save opts' now' (mkPersisted (title s) current now)
             _ Hget Hage). }
  split; [reflexivity |].
  intros a Ha. cbn [page_click]. rewrite Ha. cbn.
  now destruct p.
Qed.

Lemma fresh_page_bound :
  page_bind no_options 1 empty_store blank_dom
  = Some (PageStarted fresh_page).
Proof. reflexivity. Qed.

Lemma page_reachable_run (opts : Options) (evs : list (Z * PageEvent)) :
  forall p, PageReachable opts p -> PageReachable opts (page_run opts evs p).
Proof.
  induction evs as [| [now pe] evs IH]; intros p Hp; cbn [page_run].
  - exact Hp.
  - apply IH. now apply PageReachable_step.
Qed.

Lemma cat_done_page_reachable : PageReachable no_options cat_done_page.
Proof.
  apply page_reachable_run.
  exact (PageReachable_bind _ _ _ _ _ fresh_page_bound).
Qed.

End Autosuggest.

(** ** The theorems at concrete inputs *)


(** C2 as stated fails: after the two results for "cat" are shown,
    "dogs" settles and the loading state has no items, where the
    specification keeps the two. *)
Lemma loading_keeps_items_counterexample :
  items (lastState cat_done_widget) = cat_items
  /\ minLength no_options <= strlen "dogs"
  /\ lastState (step no_options 4 (Settle "dogs") cat_done_widget)
     <> spec_loading (lastState cat_done_widget) "dogs".
Proof.
  split; [reflexivity |]. split; [vm_compute; discriminate |].
  vm_compute. discriminate.
Qed.

Lemma loading_starts_with_no_items_witness :
  lastState (step no_options 4 (Settle "dogs") cat_done_widget)
  = Loading "dogs" [].
Proof.
  refine (proj1
    (loading_starts_with_no_items unused_StringToNumber
       unused_ObjectToNumber no_options cat_done_widget 4 "dogs" _ _)).
  - exact (cat_done_widget_reachable unused_StringToNumber unused_ObjectToNumber).
  - vm_compute. discriminate.
Defined.

(** C3 as stated fails: the search for "dogs" fails while the two
    results for "cat" were the last shown; the error state has no items,
    where the specification keeps the two. *)
Lemma error_keeps_items_counterexample :
  items (lastState cat_done_widget) = cat_items
  /\ inner dogs_loading_widget = Some (1%nat, "dogs")
  /\ lastState
       (step no_options 5
          (Response 1%nat (Failed (ThrownError "timeout")))
          dogs_loading_widget)
     <> spec_error (lastState cat_done_widget) "dogs" "timeout".
Proof.
  split; [reflexivity |]. split; [reflexivity |].
  vm_compute. discriminate.
Qed.

Lemma failure_becomes_error_state_witness :
  lastState
    (step no_options 5 (Response 1%nat (Failed (ThrownError "timeout")))
       dogs_loading_widget)
  = Errored "dogs" [] "timeout".
Proof.
  refine (proj1
    (failure_becomes_error_state unused_StringToNumber
       unused_ObjectToNumber no_options dogs_loading_widget 5 1%nat "dogs"
       (ThrownError "timeout") _ _)).
  - exact (Reachable_step _ _ no_options 4 (Settle "dogs") _
             (cat_done_widget_reachable unused_StringToNumber unused_ObjectToNumber)).
  - reflexivity.
Defined.

Lemma short_term_is_idle_without_call_witness :
  lastState (step no_options 2 (Settle "ca") fresh_widget) = Idle "ca" []
  /\ requests (step no_options 2 (Settle "ca") fresh_widget) = [].
Proof.
  pose proof
    (short_term_is_idle_without_call unused_StringToNumber
       unused_ObjectToNumber no_options fresh_widget 2 "ca"
       (fresh_widget_reachable unused_StringToNumber unused_ObjectToNumber)
       eq_refl) as H.
  cbv zeta in H. destruct H as (H1 & _ & H3 & _).
  split; [exact H1 | exact H3].
Defined.

(** C6 as stated fails twice. In the earlier draft that persists, the
    snapshot written at time 3 is still returned 31 minutes later. In the
    draft with the retention window, a record one second old whose
    [term] is a string and whose [items] is the array [[null]] is
    returned by the startup read, but binding then throws and no initial
    state is seeded. *)
Lemma snapshot_seeding_counterexample :
  (PERSIST_TTL_MS < (3 + 31 * 60 * 1000) - 3
   /\ EarlierDraft.loadPersisted cat_store
      = (Returned (Some (PersistedSuggestions_to_json
                           (mkPersisted "cat" cat_items 3))),
         cat_store))
  /\ (2000 - 1000 <= PERSIST_TTL_MS
      /\ is_string (prop null_item_record "term") = true
      /\ isArray (prop null_item_record "items") = true
      /\ loadPersisted unused_StringToNumber unused_ObjectToNumber 2000
           null_item_store
         = (Returned (Some null_item_record), null_item_store)
      /\ bindWikipediaAutosuggest unused_StringToNumber
           unused_ObjectToNumber no_options 2000 null_item_store
         = Some (Threw null_item_error)).
Proof.
  split; [split; [vm_compute |] | split; [vm_compute; discriminate |]];
    repeat split; reflexivity.
Qed.

(** The snapshot written at time 3 is read back 10 minutes later and
    seeds the initial state; 31 minutes later it is gone. *)
Lemma snapshot_is_used_within_30_minutes_only_witness :
  (loadPersisted unused_StringToNumber unused_ObjectToNumber
     (3 + 10 * 60 * 1000) cat_store
   = (Returned (Some (PersistedSuggestions_to_json
                        (mkPersisted "cat" cat_items 3))),
      cat_store)
   /\ exists w,
        bindWikipediaAutosuggest unused_StringToNumber
          unused_ObjectToNumber no_options (3 + 10 * 60 * 1000) cat_store
        = Some (Returned w)
        /\ lastState w = Done "cat" cat_items
        /\ emitted w = [Done "cat" cat_items])
  /\ loadPersisted unused_StringToNumber unused_ObjectToNumber
       (3 + 31 * 60 * 1000) cat_store
     = (Returned None, empty_store).
Proof.
  split.
  - pose proof
      (snapshot_is_used_within_30_minutes_only unused_StringToNumber
         unused_ObjectToNumber no_options (3 + 10 * 60 * 1000) cat_store
         (PersistedSuggestions_to_json (mkPersisted "cat" cat_items 3))
         "cat" (map Suggestion_to_json cat_items) 3
         eq_refl eq_refl eq_refl eq_refl eq_refl) as H.
    destruct H as (_ & _ & H & _).
    destruct H as (Hload & Hbind); [vm_compute; discriminate |].
    split; [exact Hload | exact (Hbind cat_items eq_refl)].
  - pose proof
      (snapshot_is_used_within_30_minutes_only unused_StringToNumber
         unused_ObjectToNumber no_options (3 + 31 * 60 * 1000) cat_store
         (PersistedSuggestions_to_json (mkPersisted "cat" cat_items 3))
         "cat" (map Suggestion_to_json cat_items) 3
         eq_refl eq_refl eq_refl eq_refl eq_refl) as H.
    destruct H as (_ & H & _).
    destruct H as (Hload & _); [reflexivity |].
    exact Hload.
Defined.

(** The round trip of the specification: [done("cat", [{title: "Cat",
    url: "https://x/Cat"}])] persisted at time 1000 and reloaded at time
    2000. *)
Lemma persisted_done_state_is_restored_witness :
  exists w',
    bindWikipediaAutosuggest unused_StringToNumber unused_ObjectToNumber
      no_options 2000
      (storage (subscriber no_options 1000 (Done "cat" x_cat_items)
                  fresh_widget))
    = Some (Returned w')
    /\ lastState w' = Done "cat" x_cat_items.
Proof.
  refine (proj2 (proj2 (proj2 (proj2
    (persisted_done_state_is_restored unused_StringToNumber
       unused_ObjectToNumber no_options no_options fresh_widget 1000 2000
       "cat" x_cat_items _ eq_refl eq_refl _))))).
  - discriminate.
  - vm_compute. discriminate.
Defined.


(** C10 as stated fails: [null] is not a number, yet it converts to 0, so
    a record whose [savedAt] is [null] is expired at any present-day time
    and is removed. *)
Lemma null_savedAt_counterexample :
  prop null_savedAt_record "savedAt" = Some JNull
  /\ loadPersisted unused_StringToNumber unused_ObjectToNumber
       1700000000000 null_savedAt_store
     = (Returned None, empty_store)
  /\ loadPersisted unused_StringToNumber unused_ObjectToNumber
       1700000000000 null_savedAt_store
     <> (Returned (Some null_savedAt_record), null_savedAt_store).
Proof.
  split; [reflexivity |]. split; [reflexivity |].
  vm_compute. discriminate.
Qed.

Lemma savedAt_is_compared_as_the_number_it_converts_to_witness :
  loadPersisted unused_StringToNumber unused_ObjectToNumber 1700000000000
    undated_store
  = (Returned (Some undated_record), undated_store).
Proof.
  refine (proj1
    (savedAt_is_compared_as_the_number_it_converts_to
       unused_StringToNumber unused_ObjectToNumber 1700000000000
       undated_store undated_record eq_refl eq_refl eq_refl eq_refl) _).
  left. reflexivity.
Defined.

(** ** The further theorems at concrete inputs *)

(** While "dogs" is awaited, request 1 is the last of two requests. *)
Lemma pending_search_is_the_loading_one_witness :
  lastState dogs_loading_widget = Loading "dogs" []
  /\ 2%nat = List.length (requests dogs_loading_widget)
  /\ nth_error (requests dogs_loading_widget) 1
     = Some (mkRequest 1 "dogs" 10).
Proof.
  refine (proj1 (proj2
    (pending_search_is_the_loading_one unused_StringToNumber
       unused_ObjectToNumber no_options dogs_loading_widget _))
    1%nat "dogs" eq_refl).
  exact (Reachable_step _ _ no_options 4 (Settle "dogs") _
           (cat_done_widget_reachable unused_StringToNumber
              unused_ObjectToNumber)).
Defined.

(** Five ArrowDown on two items stop on the second. *)
Lemma arrow_keys_saturate_witness :
  activeIndex (run no_options (presses 5 ArrowDown) cat_done_widget) = 1.
Proof.
  refine (proj1 (arrow_keys_saturate no_options cat_done_widget 5 _)).
  unfold cursor_in_range. vm_compute. split; discriminate.
Defined.

(** With the snapshot of "cat" in the store, "ca" settles. *)
Lemma short_term_drops_the_snapshot_witness :
  entry (storage (step no_options 4 (Settle "ca") cat_done_widget)) = None.
Proof.
  refine (proj1
    (short_term_drops_the_snapshot unused_StringToNumber
       unused_ObjectToNumber no_options no_options cat_done_widget 4 5 "ca"
       _ eq_refl _)).
  - exact (cat_done_widget_reachable unused_StringToNumber
             unused_ObjectToNumber).
  - vm_compute. reflexivity.
Defined.

(** With the snapshot of "cat" in the store, the search for "dogs"
    fails. *)
Lemma fruitless_search_keeps_the_store_witness :
  storage
    (run no_options
       [ (4, Settle "dogs");
         (5, Response 1%nat (Failed (ThrownError "timeout"))) ]
       cat_done_widget)
  = storage cat_done_widget.
Proof.
  refine (proj1
    (fruitless_search_keeps_the_store unused_StringToNumber
       unused_ObjectToNumber no_options cat_done_widget 4 5 "dogs"
       (Failed (ThrownError "timeout")) _ _ I)).
  - exact (cat_done_widget_reachable unused_StringToNumber
             unused_ObjectToNumber).
  - vm_compute. discriminate.
Defined.

(** The snapshot written at time 3 is renewed by a reload 10 minutes
    later. *)
Lemma restoring_renews_the_snapshot_witness :
  exists w,
    bindWikipediaAutosuggest unused_StringToNumber unused_ObjectToNumber
      no_options (3 + 10 * 60 * 1000) cat_store
    = Some (Returned w)
    /\ lastState w = Done "cat" cat_items
    /\ entry (storage w)
       = Some (JSON_stringify
                 (mkPersisted "cat" cat_items (3 + 10 * 60 * 1000))).
Proof.
  refine (restoring_renews_the_snapshot unused_StringToNumber
            unused_ObjectToNumber no_options (3 + 10 * 60 * 1000) cat_store
            (mkPersisted "cat" cat_items 3) eq_refl eq_refl eq_refl _ _).
  - discriminate.
  - vm_compute. discriminate.
Defined.

Lemma page_shows_the_current_state_witness :
  render_current (widget category_selected_page)
    (dom category_selected_page)
  = dom category_selected_page.
Proof.
  refine (proj1
    (page_shows_the_current_state unused_StringToNumber
       unused_ObjectToNumber no_options category_selected_page _)).
  apply page_reachable_run.
  exact (cat_done_page_reachable unused_StringToNumber
           unused_ObjectToNumber).
Defined.

(** The scenario of the specification: two ArrowDown, then Enter. *)
Lemma enter_activates_the_selected_item_witness :
  input_value
    (dom (page_step no_options 6 (OfWidget (Keydown Enter))
            category_selected_page))
  = "Category"
  /\ opened (page_step no_options 6 (OfWidget (Keydown Enter))
               category_selected_page)
     = ["u2"].
Proof.
  pose proof
    (enter_activates_the_selected_item unused_StringToNumber
       unused_ObjectToNumber no_options no_options category_selected_page
       6 7 (mkSuggestion "Category" (Some "d2") (Some "u2"))) as H.
  cbv zeta in H.
  destruct H as (H1 & H2 & _).
  - vm_compute. discriminate.
  - reflexivity.
  - split; [exact H1 |]. apply (H2 "u2"); [reflexivity | discriminate].
Defined.

(** A click on "Cat" in the rendered list. *)
Lemma click_persists_the_current_items_witness :
  entry (storage (widget
           (page_step no_options 6
              (Click (Some (anchor (make_li 0 (mkSuggestion "Cat" (Some "d1")
                                                 (Some "u1")) (-1)))))
              cat_done_page)))
  = Some (JSON_stringify (mkPersisted "Cat" cat_items 6)).
Proof.
  pose proof
    (click_persists_the_current_items unused_StringToNumber
       unused_ObjectToNumber no_options no_options cat_done_page 6 7 0%nat
       (make_li 0 (mkSuggestion "Cat" (Some "d1") (Some "u1")) (-1))) as H.
  cbv zeta in H.
  destruct H as (_ & _ & _ & _ & _ & H & _).
  - exact (cat_done_page_reachable unused_StringToNumber
             unused_ObjectToNumber).
  - reflexivity.
  - discriminate.
  - exact (proj1 (H eq_refl)).
Defined.
